(** * lib/netext/tracer.go: the HTTP request tracer and its latency breakdown

    A shallow embedding of [Trail], [Tracer], the eight httptrace hooks,
    [Done] and [Samples], followed by the properties of the timing
    decomposition.

    Conventions of the embedding:
    - Go's [int64] and [time.Duration] are integers of [Z] with the
      two's-complement wrap-around of every arithmetic operation written out
      ([Int64.add], [Int64.sub], [Int64.neg]).
    - [time.Time] is an instant, counted in nanoseconds from the Unix epoch.
    - every hook reads the wall clock through [now()]; the value read is an
      explicit argument [clock] of the hook, and [Done] takes the instant
      returned by its [time.Now()].
    - hooks are state transformers on [Tracer]; the hooks driven by
      [atomic.CompareAndSwapInt64] are modelled at their linearisation point,
      which is what an interleaving of calls observes. *)

From Stdlib Require Import ZArith Lia List String.
From stdpp Require Import base numbers list strings gmap.

Local Open Scope Z_scope.

(** ** Machine integers *)

Module Int64.

Definition MinInt64 : Z := -9223372036854775808.
Definition MaxInt64 : Z := 9223372036854775807.

Definition InRange (x : Z) : Prop := MinInt64 <= x <= MaxInt64.

(** The value an [int64] holds after an operation whose mathematical
    result is [x]. *)
Definition wrap (x : Z) : Z := Z.modulo (x + 2 ^ 63) (2 ^ 64) - 2 ^ 63.

Definition add (x y : Z) : Z := wrap (x + y).
Definition sub (x y : Z) : Z := wrap (x - y).
Definition neg (x : Z) : Z := wrap (- x).

End Int64.

(** ** The parts of package [time] that the tracer uses *)

Module time.

(** [time.Duration] is an [int64] count of nanoseconds. *)
Abbreviation Duration := Z (only parsing).

(** An instant, as nanoseconds since January 1, 1970 UTC.  Go keeps
    seconds and nanoseconds apart and covers far more than the [int64]
    nanosecond range, hence no wrap-around here. *)
Abbreviation Time := Z (only parsing).

Definition Nanosecond : Duration := 1.
Definition Microsecond : Duration := 1000 * Nanosecond.
Definition Millisecond : Duration := 1000 * Microsecond.
Definition Second : Duration := 1000 * Millisecond.

Definition minDuration : Duration := Int64.MinInt64.
Definition maxDuration : Duration := Int64.MaxInt64.

(** The zero [Time]: January 1, year 1, 00:00:00 UTC. *)
Definition zero : Time := -62135596800 * Second.

(** [time.Unix(sec, nsec)]. *)
Definition Unix (sec nsec : Z) : Time := sec * Second + nsec.

(** [t.Add(d)]. *)
Definition Add (t : Time) (d : Duration) : Time := t + d.

(** [t.Sub(u)]: the difference, saturated at the smallest and the largest
    [Duration]. *)
Definition Sub (t u : Time) : Duration :=
  if t - u <? minDuration then minDuration
  else if maxDuration <? t - u then maxDuration
  else t - u.

End time.

(** ** [sync/atomic] *)

Module atomic.

(** [CompareAndSwapInt64(addr, old, new)]: the new content of [*addr] and
    whether the swap happened. *)
Definition CompareAndSwapInt64 (cur old new : Z) : Z * bool :=
  if cur =? old then (new, true) else (cur, false).

End atomic.

(** ** Metrics and samples *)

(** Modelled from the spec: the eight metric handles of package
    [lib/metrics], which the tracer only names; each stands for one fixed
    metric. *)
Inductive stats_Metric : Type :=
  | HTTPReqs
  | HTTPReqDuration
  | HTTPReqBlocked
  | HTTPReqConnecting
  | HTTPReqSending
  | HTTPReqWaiting
  | HTTPReqReceiving
  | HTTPReqTLSHandshaking.

Section Netext.

(** Go's [error], [net.Addr] and [net.Conn] values, [tls.ConnectionState]
    and [float64].  An interface value that may be [nil] is an [option]
    of these. *)
Context {error net_Addr net_Conn tls_ConnectionState float64 : Type}.

(** [net.Conn.RemoteAddr]. *)
Variable RemoteAddr : net_Conn -> option net_Addr.

(** [stats.D], from [time.Duration] to the sample value, and the
    conversion of an integer constant to [float64]. *)
Variable D : time.Duration -> float64.
Variable float64_of_Z : Z -> float64.

(** [stats.Sample]. *)
Record Sample : Type := mkSample {
  Metric : stats_Metric;
  Time : time.Time;
  Tags : gmap string string;
  Value : float64
}.

(** ** Trail *)

Record Trail : Type := mkTrail {
  StartTime : time.Time;
  EndTime : time.Time;
  Duration : time.Duration;
  Blocked : time.Duration;
  Connecting : time.Duration;
  TLSHandshaking : time.Duration;
  Sending : time.Duration;
  Waiting : time.Duration;
  Receiving : time.Duration;
  ConnReused : bool;
  ConnRemoteAddr : option net_Addr
}.

(** Assignments to the fields of a [Trail] that [Done] performs. *)
Definition set_StartTime (v : time.Time) (tr : Trail) : Trail :=
  mkTrail v (EndTime tr) (Duration tr) (Blocked tr) (Connecting tr)
    (TLSHandshaking tr) (Sending tr) (Waiting tr) (Receiving tr)
    (ConnReused tr) (ConnRemoteAddr tr).
Definition set_EndTime (v : time.Time) (tr : Trail) : Trail :=
  mkTrail (StartTime tr) v (Duration tr) (Blocked tr) (Connecting tr)
    (TLSHandshaking tr) (Sending tr) (Waiting tr) (Receiving tr)
    (ConnReused tr) (ConnRemoteAddr tr).
Definition set_Duration (v : time.Duration) (tr : Trail) : Trail :=
  mkTrail (StartTime tr) (EndTime tr) v (Blocked tr) (Connecting tr)
    (TLSHandshaking tr) (Sending tr) (Waiting tr) (Receiving tr)
    (ConnReused tr) (ConnRemoteAddr tr).
Definition set_Blocked (v : time.Duration) (tr : Trail) : Trail :=
  mkTrail (StartTime tr) (EndTime tr) (Duration tr) v (Connecting tr)
    (TLSHandshaking tr) (Sending tr) (Waiting tr) (Receiving tr)
    (ConnReused tr) (ConnRemoteAddr tr).
Definition set_Connecting (v : time.Duration) (tr : Trail) : Trail :=
  mkTrail (StartTime tr) (EndTime tr) (Duration tr) (Blocked tr) v
    (TLSHandshaking tr) (Sending tr) (Waiting tr) (Receiving tr)
    (ConnReused tr) (ConnRemoteAddr tr).
Definition set_TLSHandshaking (v : time.Duration) (tr : Trail) : Trail :=
  mkTrail (StartTime tr) (EndTime tr) (Duration tr) (Blocked tr)
    (Connecting tr) v (Sending tr) (Waiting tr) (Receiving tr)
    (ConnReused tr) (ConnRemoteAddr tr).
Definition set_Sending (v : time.Duration) (tr : Trail) : Trail :=
  mkTrail (StartTime tr) (EndTime tr) (Duration tr) (Blocked tr)
    (Connecting tr) (TLSHandshaking tr) v (Waiting tr) (Receiving tr)
    (ConnReused tr) (ConnRemoteAddr tr).
Definition set_Waiting (v : time.Duration) (tr : Trail) : Trail :=
  mkTrail (StartTime tr) (EndTime tr) (Duration tr) (Blocked tr)
    (Connecting tr) (TLSHandshaking tr) (Sending tr) v (Receiving tr)
    (ConnReused tr) (ConnRemoteAddr tr).
Definition set_Receiving (v : time.Duration) (tr : Trail) : Trail :=
  mkTrail (StartTime tr) (EndTime tr) (Duration tr) (Blocked tr)
    (Connecting tr) (TLSHandshaking tr) (Sending tr) (Waiting tr) v
    (ConnReused tr) (ConnRemoteAddr tr).

(** [Trail.Samples]: the pre-calculated sample values of the request.  The
    Go slice literal is the list below; every element holds the same
    [tags] map. *)
Definition Samples (tr : Trail) (tags : gmap string string) : list Sample :=
  [ mkSample HTTPReqs (EndTime tr) tags (float64_of_Z 1);
    mkSample HTTPReqDuration (EndTime tr) tags (D (Duration tr));
    mkSample HTTPReqBlocked (EndTime tr) tags (D (Blocked tr));
    mkSample HTTPReqConnecting (EndTime tr) tags (D (Connecting tr));
    mkSample HTTPReqSending (EndTime tr) tags (D (Sending tr));
    mkSample HTTPReqWaiting (EndTime tr) tags (D (Waiting tr));
    mkSample HTTPReqReceiving (EndTime tr) tags (D (Receiving tr));
    mkSample HTTPReqTLSHandshaking (EndTime tr) tags
      (D (TLSHandshaking tr)) ].

(** ** Tracer *)

(** The timestamps are [int64] Unix nanoseconds, 0 standing for "not
    recorded".  [protoErrorsMutex] only serialises the appends of
    [addError] and carries no data. *)
Record Tracer : Type := mkTracer {
  getConn : Z;
  connectStart : Z;
  connectDone : Z;
  tlsHandshakeStart : Z;
  tlsHandshakeDone : Z;
  gotConn : Z;
  wroteRequest : Z;
  gotFirstResponseByte : Z;
  connReused : bool;
  connRemoteAddr : option net_Addr;
  protoErrors : list error
}.

(** The zero value [Tracer{}], which is what a request starts from. *)
Definition newTracer : Tracer :=
  mkTracer 0 0 0 0 0 0 0 0 false None [].

Definition set_getConn (v : Z) (t : Tracer) : Tracer :=
  mkTracer v (connectStart t) (connectDone t) (tlsHandshakeStart t)
    (tlsHandshakeDone t) (gotConn t) (wroteRequest t)
    (gotFirstResponseByte t) (connReused t) (connRemoteAddr t)
    (protoErrors t).
Definition set_connectStart (v : Z) (t : Tracer) : Tracer :=
  mkTracer (getConn t) v (connectDone t) (tlsHandshakeStart t)
    (tlsHandshakeDone t) (gotConn t) (wroteRequest t)
    (gotFirstResponseByte t) (connReused t) (connRemoteAddr t)
    (protoErrors t).
Definition set_connectDone (v : Z) (t : Tracer) : Tracer :=
  mkTracer (getConn t) (connectStart t) v (tlsHandshakeStart t)
    (tlsHandshakeDone t) (gotConn t) (wroteRequest t)
    (gotFirstResponseByte t) (connReused t) (connRemoteAddr t)
    (protoErrors t).
Definition set_tlsHandshakeStart (v : Z) (t : Tracer) : Tracer :=
  mkTracer (getConn t) (connectStart t) (connectDone t) v
    (tlsHandshakeDone t) (gotConn t) (wroteRequest t)
    (gotFirstResponseByte t) (connReused t) (connRemoteAddr t)
    (protoErrors t).
Definition set_tlsHandshakeDone (v : Z) (t : Tracer) : Tracer :=
  mkTracer (getConn t) (connectStart t) (connectDone t)
    (tlsHandshakeStart t) v (gotConn t) (wroteRequest t)
    (gotFirstResponseByte t) (connReused t) (connRemoteAddr t)
    (protoErrors t).
Definition set_gotConn (v : Z) (t : Tracer) : Tracer :=
  mkTracer (getConn t) (connectStart t) (connectDone t)
    (tlsHandshakeStart t) (tlsHandshakeDone t) v (wroteRequest t)
    (gotFirstResponseByte t) (connReused t) (connRemoteAddr t)
    (protoErrors t).
Definition set_wroteRequest (v : Z) (t : Tracer) : Tracer :=
  mkTracer (getConn t) (connectStart t) (connectDone t)
    (tlsHandshakeStart t) (tlsHandshakeDone t) (gotConn t) v
    (gotFirstResponseByte t) (connReused t) (connRemoteAddr t)
    (protoErrors t).
Definition set_gotFirstResponseByte (v : Z) (t : Tracer) : Tracer :=
  mkTracer (getConn t) (connectStart t) (connectDone t)
    (tlsHandshakeStart t) (tlsHandshakeDone t) (gotConn t)
    (wroteRequest t) v (connReused t) (connRemoteAddr t) (protoErrors t).
Definition set_connReused (v : bool) (t : Tracer) : Tracer :=
  mkTracer (getConn t) (connectStart t) (connectDone t)
    (tlsHandshakeStart t) (tlsHandshakeDone t) (gotConn t)
    (wroteRequest t) (gotFirstResponseByte t) v (connRemoteAddr t)
    (protoErrors t).
Definition set_connRemoteAddr (v : option net_Addr) (t : Tracer) : Tracer :=
  mkTracer (getConn t) (connectStart t) (connectDone t)
    (tlsHandshakeStart t) (tlsHandshakeDone t) (gotConn t)
    (wroteRequest t) (gotFirstResponseByte t) (connReused t) v
    (protoErrors t).
Definition set_protoErrors (v : list error) (t : Tracer) : Tracer :=
  mkTracer (getConn t) (connectStart t) (connectDone t)
    (tlsHandshakeStart t) (tlsHandshakeDone t) (gotConn t)
    (wroteRequest t) (gotFirstResponseByte t) (connReused t)
    (connRemoteAddr t) v.

(** [httptrace.GotConnInfo] and [httptrace.WroteRequestInfo]. *)
Record GotConnInfo : Type := mkGotConnInfo {
  Conn : option net_Conn;
  Reused : bool;
  WasIdle : bool;
  IdleTime : time.Duration
}.

Record WroteRequestInfo : Type := mkWroteRequestInfo {
  Err : option error
}.

(** How a call ends: it returns, or it panics; both leave a state. *)
Inductive exec : Type :=
  | Returned (t : Tracer)
  | Panicked (t : Tracer).

Definition after (x : exec) : Tracer :=
  match x with Returned t => t | Panicked t => t end.

Definition returns (x : exec) : bool :=
  match x with Returned _ => true | Panicked _ => false end.

(** [addError]: append under the mutex. *)
Definition addError (t : Tracer) (err : error) : Tracer :=
  set_protoErrors (protoErrors t ++ [err]) t.

Definition GetConn (t : Tracer) (hostPort : string) (clock : Z) : Tracer :=
  set_getConn clock t.

Definition ConnectStart (t : Tracer) (network addr : string) (clock : Z)
  : Tracer :=
  set_connectStart
    (fst (atomic.CompareAndSwapInt64 (connectStart t) 0 clock)) t.

Definition ConnectDone (t : Tracer) (network addr : string)
    (err : option error) (clock : Z) : Tracer :=
  let t := set_connectDone
             (fst (atomic.CompareAndSwapInt64 (connectDone t) 0 clock)) t in
  match err with
  | Some e => addError t e
  | None => t
  end.

Definition TLSHandshakeStart (t : Tracer) (clock : Z) : Tracer :=
  set_tlsHandshakeStart clock t.

Definition TLSHandshakeDone (t : Tracer) (state : tls_ConnectionState)
    (err : option error) (clock : Z) : Tracer :=
  let t := set_tlsHandshakeDone clock t in
  match err with
  | Some e => addError t e
  | None => t
  end.

(** [info.Conn.RemoteAddr()] on a nil [info.Conn] is a nil dereference:
    the call panics after the first two assignments. *)
Definition GotConn (t : Tracer) (info : GotConnInfo) (clock : Z) : exec :=
  let now := clock in
  let t := set_gotConn now t in
  let t := set_connReused (Reused info) t in
  match Conn info with
  | None => Panicked t
  | Some c =>
      let t := set_connRemoteAddr (RemoteAddr c) t in
      if connReused t then
        let t := set_connectStart
                   (fst (atomic.CompareAndSwapInt64 (connectStart t) 0 now))
                   t in
        let t := set_connectDone
                   (fst (atomic.CompareAndSwapInt64 (connectDone t) 0 now))
                   t in
        Returned t
      else Returned t
  end.

Definition WroteRequest (t : Tracer) (info : WroteRequestInfo) (clock : Z)
  : Tracer :=
  let t := set_wroteRequest
             (fst (atomic.CompareAndSwapInt64 (wroteRequest t) 0 clock)) t in
  match Err info with
  | Some e => addError t e
  | None => t
  end.

Definition GotFirstResponseByte (t : Tracer) (clock : Z) : Tracer :=
  set_gotFirstResponseByte clock t.

(** [x != 0] on [int64]. *)
Definition nonzero (x : Z) : bool := negb (x =? 0).

(** [Done]: [done] is the instant its [time.Now()] returns. *)
Definition Done (t : Tracer) (done : time.Time) : Trail :=
  let trail := mkTrail time.zero time.zero 0 0 0 0 0 0 0
                 (connReused t) (connRemoteAddr t) in
  let trail :=
    if nonzero (gotConn t) && nonzero (getConn t)
    then set_Blocked (Int64.sub (gotConn t) (getConn t)) trail
    else trail in
  let trail :=
    if nonzero (connectDone t) && nonzero (connectStart t)
    then set_Connecting (Int64.sub (connectDone t) (connectStart t)) trail
    else trail in
  let trail :=
    if nonzero (tlsHandshakeDone t) && nonzero (tlsHandshakeStart t)
    then set_TLSHandshaking
           (Int64.sub (tlsHandshakeDone t) (tlsHandshakeStart t)) trail
    else trail in
  let trail :=
    if nonzero (wroteRequest t) then
      let trail :=
        set_Sending (Int64.sub (wroteRequest t) (connectDone t)) trail in
      let trail :=
        if nonzero (tlsHandshakeDone t)
        then set_Sending
               (Int64.sub (wroteRequest t) (tlsHandshakeDone t)) trail
        else trail in
      if nonzero (gotFirstResponseByte t)
      then set_Waiting
             (Int64.sub (gotFirstResponseByte t) (wroteRequest t)) trail
      else trail
    else trail in
  let trail :=
    if nonzero (gotFirstResponseByte t)
    then set_Receiving
           (time.Sub done (time.Unix 0 (gotFirstResponseByte t))) trail
    else trail in
  let trail := set_EndTime done trail in
  let trail :=
    set_Duration
      (Int64.add (Int64.add (Sending trail) (Waiting trail))
         (Receiving trail)) trail in
  let trail :=
    set_StartTime
      (time.Add (EndTime trail) (Int64.neg (Duration trail))) trail in
  trail.

(** ** Sequences of hook calls *)

(** One call of a hook by the HTTP client, with its arguments. *)
Inductive Event : Type :=
  | EvGetConn (hostPort : string)
  | EvConnectStart (network addr : string)
  | EvConnectDone (network addr : string) (err : option error)
  | EvTLSHandshakeStart
  | EvTLSHandshakeDone (state : tls_ConnectionState) (err : option error)
  | EvGotConn (info : GotConnInfo)
  | EvWroteRequest (info : WroteRequestInfo)
  | EvGotFirstResponseByte.

(** The hook the [httptrace.ClientTrace] of [Trace] dispatches to, run
    with the clock showing [clock]. *)
Definition fire (t : Tracer) (ev : Event) (clock : Z) : exec :=
  match ev with
  | EvGetConn hp => Returned (GetConn t hp clock)
  | EvConnectStart n a => Returned (ConnectStart t n a clock)
  | EvConnectDone n a err => Returned (ConnectDone t n a err clock)
  | EvTLSHandshakeStart => Returned (TLSHandshakeStart t clock)
  | EvTLSHandshakeDone st err =>
      Returned (TLSHandshakeDone t st err clock)
  | EvGotConn info => GotConn t info clock
  | EvWroteRequest info => Returned (WroteRequest t info clock)
  | EvGotFirstResponseByte => Returned (GotFirstResponseByte t clock)
  end.

(** Calls in sequence, each with the clock value it reads; a panic ends
    the sequence. *)
Fixpoint run (t : Tracer) (calls : list (Event * Z)) : exec :=
  match calls with
  | [] => Returned t
  | (ev, clock) :: rest =>
      match fire t ev clock with
      | Returned t' => run t' rest
      | Panicked t' => Panicked t'
      end
  end.

(** The error a call hands to the tracer, if any. *)
Definition error_of (ev : Event) : option error :=
  match ev with
  | EvConnectDone _ _ err => err
  | EvTLSHandshakeDone _ err => err
  | EvWroteRequest info => Err info
  | _ => None
  end.

(** The errors that a sequence of calls hands over, in call order. *)
Definition errors_of (calls : list (Event * Z)) : list error :=
  omap (fun call => error_of (fst call)) calls.

(** No call of the sequence passes a nil [Conn] to [GotConn]. *)
Definition has_conn (ev : Event) : bool :=
  match ev with
  | EvGotConn info => bool_decide (is_Some (Conn info))
  | _ => true
  end.

(** ** Vocabulary of the statements *)

(** A clock reading that an [int64] timestamp field can hold and tell from
    "not recorded" when it is not 0: a Unix time from the epoch on. *)
Definition timestamp (x : Z) : Prop := 0 <= x <= Int64.MaxInt64.

Definition timestamps (t : Tracer) : Prop :=
  timestamp (getConn t) /\ timestamp (connectStart t)
  /\ timestamp (connectDone t) /\ timestamp (tlsHandshakeStart t)
  /\ timestamp (tlsHandshakeDone t) /\ timestamp (gotConn t)
  /\ timestamp (wroteRequest t) /\ timestamp (gotFirstResponseByte t).

(** [a] was recorded no later than [b], if both were recorded. *)
Definition precedes (a b : Z) : Prop := a <> 0 -> b <> 0 -> a <= b.

(** The recorded timestamps follow the order of the request's life, and
    [done] is not before the first response byte. *)
Definition in_order (t : Tracer) (done : time.Time) : Prop :=
  precedes (getConn t) (gotConn t)
  /\ precedes (connectStart t) (connectDone t)
  /\ precedes (tlsHandshakeStart t) (tlsHandshakeDone t)
  /\ precedes (connectDone t) (wroteRequest t)
  /\ precedes (tlsHandshakeDone t) (wroteRequest t)
  /\ precedes (wroteRequest t) (gotFirstResponseByte t)
  /\ (gotFirstResponseByte t <> 0 -> gotFirstResponseByte t <= done).

(** A plaintext request over a fresh connection [conn], the first hook
    firing at clock reading [t0]. *)
Definition plaintext_fresh (t0 : Z) (conn : net_Conn) : list (Event * Z) :=
  [ (EvGetConn "example.com:80", t0);
    (EvConnectStart "tcp" "192.0.2.1:80", t0);
    (EvConnectDone "tcp" "192.0.2.1:80" None, t0 + 10 * time.Millisecond);
    (EvGotConn (mkGotConnInfo (Some conn) false false 0),
     t0 + 10 * time.Millisecond);
    (EvWroteRequest (mkWroteRequestInfo None), t0 + 11 * time.Millisecond);
    (EvGotFirstResponseByte, t0 + 50 * time.Millisecond) ].

(** A clock reading that a timestamp field records as set: a Unix time
    after the epoch that an [int64] holds. *)
Definition recorded (c : Z) : Prop := 0 < c <= Int64.MaxInt64.

(** The timestamp that [Done] subtracts from request-written. *)
Definition sending_base (t : Tracer) : Z :=
  if nonzero (tlsHandshakeDone t) then tlsHandshakeDone t else connectDone t.

(** The timestamp at which the measured part of a request begins once a
    response byte was seen: the base of [Sending] when the request was
    written, the first response byte otherwise. *)
Definition request_origin (t : Tracer) : Z :=
  if nonzero (wroteRequest t) then sending_base t
  else gotFirstResponseByte t.

(** The same call without its error. *)
Definition strip_error (ev : Event) : Event :=
  match ev with
  | EvConnectDone n a _ => EvConnectDone n a None
  | EvTLSHandshakeDone st _ => EvTLSHandshakeDone st None
  | EvWroteRequest _ => EvWroteRequest (mkWroteRequestInfo None)
  | _ => ev
  end.

Definition strip_errors (calls : list (Event * Z)) : list (Event * Z) :=
  map (fun call => (strip_error (fst call), snd call)) calls.

(** Connection setup happened in order: the dial after the request for a
    connection, the handshake after the dial, and the connection handed
    over after both. *)
Definition setup_in_order (t : Tracer) : Prop :=
  precedes (getConn t) (gotConn t)
  /\ precedes (getConn t) (connectStart t)
  /\ precedes (getConn t) (tlsHandshakeStart t)
  /\ precedes (connectStart t) (connectDone t)
  /\ precedes (connectDone t) (tlsHandshakeStart t)
  /\ precedes (tlsHandshakeStart t) (tlsHandshakeDone t)
  /\ precedes (connectDone t) (gotConn t)
  /\ precedes (tlsHandshakeDone t) (gotConn t).

(** A TLS request over a fresh connection, every hook firing once, at the
    clock readings [c0] to [c7]. *)
Definition tls_fresh (c0 c1 c2 c3 c4 c5 c6 c7 : Z) (conn : net_Conn)
    (state : tls_ConnectionState) : list (Event * Z) :=
  [ (EvGetConn "example.com:443", c0);
    (EvConnectStart "tcp" "192.0.2.1:443", c1);
    (EvConnectDone "tcp" "192.0.2.1:443" None, c2);
    (EvTLSHandshakeStart, c3);
    (EvTLSHandshakeDone state None, c4);
    (EvGotConn (mkGotConnInfo (Some conn) false false 0), c5);
    (EvWroteRequest (mkWroteRequestInfo None), c6);
    (EvGotFirstResponseByte, c7) ].

(** A request over a connection taken from the idle pool. *)
Definition reused_request (c0 c1 c2 c3 : Z) (conn : net_Conn)
    (idle : time.Duration) : list (Event * Z) :=
  [ (EvGetConn "example.com:443", c0);
    (EvGotConn (mkGotConnInfo (Some conn) true true idle), c1);
    (EvWroteRequest (mkWroteRequestInfo None), c2);
    (EvGotFirstResponseByte, c3) ].

End Netext.

(** ** A concrete instance

    Errors are their messages, a connection is known by the address of its
    remote end, and a TLS connection state carries nothing. *)

Definition RemoteAddr_string (conn : string) : option string := Some conn.

Definition tracer_string : Type := @Tracer string string.

Definition event_string : Type := @Event string string unit.

Definition run_string (t : tracer_string) (calls : list (event_string * Z))
  : tracer_string :=
  after (run RemoteAddr_string t calls).

(** 2017-07-14 02:40:00 UTC, in Unix nanoseconds. *)
Definition some_clock : Z := 1500000000000000000.

(** Two failed dials of a dual-stack connect, then a failed write. *)
Definition failed_dials : list (event_string * Z) :=
  [ (EvConnectDone "tcp6" "[2001:db8::1]:80" (Some "no route to host"),
     some_clock);
    (EvConnectDone "tcp4" "192.0.2.1:80" (Some "connection refused"),
     some_clock + 5);
    (EvWroteRequest (mkWroteRequestInfo (Some "broken pipe")),
     some_clock + 9) ].

(** A TLS request whose hooks fire 1ms to 60ms after [some_clock]. *)
Definition tls_calls : list (event_string * Z) :=
  tls_fresh (some_clock + 1000000) (some_clock + 2000000)
    (some_clock + 12000000) (some_clock + 12000000) (some_clock + 27000000)
    (some_clock + 27000000) (some_clock + 28000000) (some_clock + 60000000)
    "192.0.2.1:443" tt.

(** A request over a connection that sat idle for one second. *)
Definition reused_calls : list (event_string * Z) :=
  reused_request (some_clock + 1000000) (some_clock + 1000500)
    (some_clock + 2000000) (some_clock + 40000000) "192.0.2.1:443"
    time.Second.

(** The recorder after the plaintext scenario, and after one more
    [GetConn] and [TLSHandshakeStart]. *)
Definition plaintext_state : tracer_string :=
  run_string newTracer (plaintext_fresh some_clock "192.0.2.1:80").

Definition plaintext_state_again : tracer_string :=
  TLSHandshakeStart (GetConn plaintext_state "example.com:80"
                       (some_clock + 55000000))
    (some_clock + 56000000).


(** * Properties *)

(** ** Wrap-around arithmetic *)

Lemma wrap_InRange (x : Z) : Int64.InRange (Int64.wrap x).
Proof.
  unfold Int64.InRange, Int64.wrap, Int64.MinInt64, Int64.MaxInt64.
  pose proof (Z.mod_pos_bound (x + 2 ^ 63) (2 ^ 64) ltac:(lia)). lia.
Qed.

Lemma wrap_small (x : Z) : Int64.InRange x -> Int64.wrap x = x.
Proof.
  unfold Int64.InRange, Int64.wrap, Int64.MinInt64, Int64.MaxInt64.
  intros Hx. rewrite Z.mod_small; lia.
Qed.

Lemma wrap_add_idemp_l (a b : Z) :
  Int64.wrap (Int64.wrap a + b) = Int64.wrap (a + b).
Proof.
  unfold Int64.wrap.
  replace ((a + 2 ^ 63) mod 2 ^ 64 - 2 ^ 63 + b + 2 ^ 63)
    with ((a + 2 ^ 63) mod 2 ^ 64 + b) by lia.
  rewrite Z.add_mod_idemp_l by lia.
  f_equal. f_equal. lia.
Qed.

Lemma sub_diag (x : Z) : Int64.sub x x = 0.
Proof. unfold Int64.sub. rewrite Z.sub_diag. reflexivity. Qed.

Lemma sub_small (x y : Z) :
  Int64.InRange (x - y) -> Int64.sub x y = x - y.
Proof. apply wrap_small. Qed.

Lemma add_assoc_sum (a b c : Z) :
  Int64.add (Int64.add a b) c = Int64.wrap (a + b + c).
Proof. unfold Int64.add. apply wrap_add_idemp_l. Qed.

Lemma neg_small (d : Z) :
  Int64.InRange d -> d <> Int64.MinInt64 -> Int64.neg d = - d.
Proof.
  unfold Int64.neg. intros Hd Hmin. apply wrap_small.
  unfold Int64.InRange, Int64.MinInt64, Int64.MaxInt64 in *. lia.
Qed.

Lemma Sub_InRange (t u : Z) : Int64.InRange (time.Sub t u).
Proof.
  unfold time.Sub, time.minDuration, time.maxDuration, Int64.InRange,
    Int64.MinInt64, Int64.MaxInt64.
  destruct (Z.ltb_spec (t - u) (-9223372036854775808));
    [lia | destruct (Z.ltb_spec 9223372036854775807 (t - u)); lia].
Qed.

Lemma Sub_small (t u : Z) : Int64.InRange (t - u) -> time.Sub t u = t - u.
Proof.
  unfold time.Sub, time.minDuration, time.maxDuration, Int64.InRange,
    Int64.MinInt64, Int64.MaxInt64.
  intros H.
  destruct (Z.ltb_spec (t - u) (-9223372036854775808));
    [lia | destruct (Z.ltb_spec 9223372036854775807 (t - u)); lia].
Qed.

Lemma nonzero_true (x : Z) : nonzero x = true <-> x <> 0.
Proof. unfold nonzero. destruct (Z.eqb_spec x 0); simpl; split; congruence. Qed.

Lemma nonzero_false (x : Z) : nonzero x = false <-> x = 0.
Proof. unfold nonzero. destruct (Z.eqb_spec x 0); simpl; split; congruence. Qed.

Lemma CompareAndSwapInt64_set (cur new : Z) :
  cur <> 0 -> fst (atomic.CompareAndSwapInt64 cur 0 new) = cur.
Proof.
  intros H. unfold atomic.CompareAndSwapInt64.
  destruct (Z.eqb_spec cur 0); [contradiction | reflexivity].
Qed.

Section DoneFacts.

Context {net_Addr error : Type}.
Implicit Types (t : @Tracer error net_Addr) (done : Z).

(** *** What [Done] stores in each field *)

(** The sequence of assignments of [Done], collapsed into one record. *)
Lemma Done_unfold t done :
  Done t done =
    let sending :=
      if nonzero (wroteRequest t) then
        if nonzero (tlsHandshakeDone t)
        then Int64.sub (wroteRequest t) (tlsHandshakeDone t)
        else Int64.sub (wroteRequest t) (connectDone t)
      else 0 in
    let waiting :=
      if nonzero (wroteRequest t) then
        if nonzero (gotFirstResponseByte t)
        then Int64.sub (gotFirstResponseByte t) (wroteRequest t)
        else 0
      else 0 in
    let receiving :=
      if nonzero (gotFirstResponseByte t)
      then time.Sub done (time.Unix 0 (gotFirstResponseByte t))
      else 0 in
    let duration := Int64.add (Int64.add sending waiting) receiving in
    mkTrail (time.Add done (Int64.neg duration)) done duration
      (if nonzero (gotConn t) && nonzero (getConn t)
       then Int64.sub (gotConn t) (getConn t) else 0)
      (if nonzero (connectDone t) && nonzero (connectStart t)
       then Int64.sub (connectDone t) (connectStart t) else 0)
      (if nonzero (tlsHandshakeDone t) && nonzero (tlsHandshakeStart t)
       then Int64.sub (tlsHandshakeDone t) (tlsHandshakeStart t) else 0)
      sending waiting receiving (connReused t) (connRemoteAddr t).
Proof.
  unfold Done.
  destruct (nonzero (gotConn t) && nonzero (getConn t)),
    (nonzero (connectDone t) && nonzero (connectStart t)),
    (nonzero (tlsHandshakeDone t) && nonzero (tlsHandshakeStart t)),
    (nonzero (wroteRequest t)), (nonzero (tlsHandshakeDone t)),
    (nonzero (gotFirstResponseByte t)); reflexivity.
Qed.

Lemma Done_EndTime t done : EndTime (Done t done) = done.
Proof. rewrite Done_unfold. reflexivity. Qed.

Lemma Done_Blocked t done :
  Blocked (Done t done) =
    if nonzero (gotConn t) && nonzero (getConn t)
    then Int64.sub (gotConn t) (getConn t) else 0.
Proof. rewrite Done_unfold. reflexivity. Qed.

Lemma Done_Connecting t done :
  Connecting (Done t done) =
    if nonzero (connectDone t) && nonzero (connectStart t)
    then Int64.sub (connectDone t) (connectStart t) else 0.
Proof. rewrite Done_unfold. reflexivity. Qed.

Lemma Done_TLSHandshaking t done :
  TLSHandshaking (Done t done) =
    if nonzero (tlsHandshakeDone t) && nonzero (tlsHandshakeStart t)
    then Int64.sub (tlsHandshakeDone t) (tlsHandshakeStart t) else 0.
Proof. rewrite Done_unfold. reflexivity. Qed.

Lemma Done_Sending t done :
  Sending (Done t done) =
    if nonzero (wroteRequest t) then
      if nonzero (tlsHandshakeDone t)
      then Int64.sub (wroteRequest t) (tlsHandshakeDone t)
      else Int64.sub (wroteRequest t) (connectDone t)
    else 0.
Proof. rewrite Done_unfold. reflexivity. Qed.

Lemma Done_Waiting t done :
  Waiting (Done t done) =
    if nonzero (wroteRequest t) then
      if nonzero (gotFirstResponseByte t)
      then Int64.sub (gotFirstResponseByte t) (wroteRequest t)
      else 0
    else 0.
Proof. rewrite Done_unfold. reflexivity. Qed.

Lemma Done_Receiving t done :
  Receiving (Done t done) =
    if nonzero (gotFirstResponseByte t)
    then time.Sub done (gotFirstResponseByte t) else 0.
Proof. rewrite Done_unfold. reflexivity. Qed.

Lemma Done_Duration t done :
  Duration (Done t done) =
    Int64.add
      (Int64.add (Sending (Done t done)) (Waiting (Done t done)))
      (Receiving (Done t done)).
Proof. rewrite Done_unfold. reflexivity. Qed.

Lemma Done_StartTime t done :
  StartTime (Done t done) =
    time.Add (EndTime (Done t done)) (Int64.neg (Duration (Done t done))).
Proof. rewrite Done_unfold. reflexivity. Qed.

Lemma Done_Duration_InRange t done : Int64.InRange (Duration (Done t done)).
Proof. rewrite Done_Duration. apply wrap_InRange. Qed.

End DoneFacts.

(** ** The derivation of durations *)

Section Derivation.

Context {net_Addr error : Type}.
Implicit Types (t : @Tracer error net_Addr) (done : Z).

Lemma Done_Sending_InRange t done : Int64.InRange (Sending (Done t done)).
Proof.
  rewrite Done_Sending.
  destruct (nonzero (wroteRequest t)); [| unfold Int64.InRange; vm_compute; split; discriminate].
  destruct (nonzero (tlsHandshakeDone t)); apply wrap_InRange.
Qed.

Lemma Done_Receiving_InRange t done : Int64.InRange (Receiving (Done t done)).
Proof.
  rewrite Done_Receiving.
  destruct (nonzero (gotFirstResponseByte t)); [apply Sub_InRange |].
  unfold Int64.InRange; vm_compute; split; discriminate.
Qed.

Lemma Done_unwritten t done :
  wroteRequest t = 0 ->
  Sending (Done t done) = 0 /\ Waiting (Done t done) = 0.
Proof.
  intros H. apply nonzero_false in H.
  rewrite Done_Sending, Done_Waiting, H. split; reflexivity.
Qed.

Lemma Done_unanswered t done :
  gotFirstResponseByte t = 0 ->
  Waiting (Done t done) = 0 /\ Receiving (Done t done) = 0.
Proof.
  intros H. apply nonzero_false in H.
  rewrite Done_Waiting, Done_Receiving, H.
  destruct (nonzero (wroteRequest t)); split; reflexivity.
Qed.

(** The sum of line 269.  For every recorder state and every end instant,
    the [Duration] of the trail that [Done] returns is
    [Sending + Waiting + Receiving], the sum being Go's addition on
    [time.Duration]; whenever the sum of the three integers fits an [int64]
    it is that integer exactly.  With request-written unset [Sending] and
    [Waiting] are 0 and the total is [Receiving]; with first-response-byte
    unset [Waiting] and [Receiving] are 0 and the total is [Sending].
    Nothing is said here of a [Sending] whose base was not recorded. *)
Theorem Done_duration_additive t done :
  let tr := Done t done in
  Duration tr = Int64.add (Int64.add (Sending tr) (Waiting tr)) (Receiving tr)
  /\ (Int64.InRange (Sending tr + Waiting tr + Receiving tr) ->
      Duration tr = Sending tr + Waiting tr + Receiving tr)
  /\ (wroteRequest t = 0 ->
      Sending tr = 0 /\ Waiting tr = 0 /\ Duration tr = Receiving tr)
  /\ (gotFirstResponseByte t = 0 ->
      Waiting tr = 0 /\ Receiving tr = 0 /\ Duration tr = Sending tr).
Proof.
  cbv zeta. split; [apply Done_Duration |].
  split; [| split].
  - intros Hfit. rewrite Done_Duration, add_assoc_sum.
    apply wrap_small, Hfit.
  - intros H. destruct (Done_unwritten t done H) as [Hs Hw].
    repeat split; trivial.
    rewrite Done_Duration, add_assoc_sum, Hs, Hw. cbn [Z.add].
    apply wrap_small, Done_Receiving_InRange.
  - intros H. destruct (Done_unanswered t done H) as [Hw Hr].
    repeat split; trivial.
    rewrite Done_Duration, add_assoc_sum, Hw, Hr, !Z.add_0_r.
    apply wrap_small, Done_Sending_InRange.
Qed.

(** C6.  For every recorder state, [StartTime] is [EndTime.Add(-Duration)],
    with [EndTime] the instant [Done] was called at; as an integer equation
    this is [StartTime = EndTime - Duration] for every [Duration] whose
    negation an [int64] holds.  When nothing was written and nothing
    received [Duration] is zero and [StartTime] equals [EndTime]; when no
    hook fired at all every phase is zero as well. *)
Theorem Done_start_time t done :
  let tr := Done t done in
  EndTime tr = done
  /\ StartTime tr = time.Add (EndTime tr) (Int64.neg (Duration tr))
  /\ (Duration tr <> Int64.MinInt64 -> StartTime tr = EndTime tr - Duration tr)
  /\ (wroteRequest t = 0 -> gotFirstResponseByte t = 0 ->
      Duration tr = 0 /\ StartTime tr = EndTime tr)
  /\ (let tr0 := Done (@newTracer error net_Addr) done in
      Blocked tr0 = 0 /\ Connecting tr0 = 0 /\ TLSHandshaking tr0 = 0
      /\ Sending tr0 = 0 /\ Waiting tr0 = 0 /\ Receiving tr0 = 0
      /\ Duration tr0 = 0 /\ StartTime tr0 = EndTime tr0).
Proof.
  cbv zeta. split; [apply Done_EndTime |].
  split; [apply Done_StartTime |].
  split; [| split].
  - intros Hmin. rewrite Done_StartTime. unfold time.Add.
    rewrite neg_small by (trivial; apply Done_Duration_InRange). lia.
  - intros Hw Hb.
    destruct (Done_unwritten t done Hw) as [Hs _].
    destruct (Done_unanswered t done Hb) as [Hwt Hr].
    assert (Hd : Duration (Done t done) = 0)
      by (rewrite Done_Duration, Hs, Hwt, Hr; reflexivity).
    split; [exact Hd |].
    rewrite Done_StartTime, Hd. unfold time.Add.
    change (Int64.neg 0) with 0. lia.
  - repeat split; try reflexivity.
    rewrite Done_StartTime, Done_EndTime. unfold time.Add.
    change (Int64.neg (Duration (Done newTracer done))) with 0. lia.
Qed.

End Derivation.

Section Phases.

Context {net_Addr error : Type}.
Implicit Types (t : @Tracer error net_Addr) (done : Z).

Lemma sub_nonneg (a b : Z) :
  timestamp a -> timestamp b -> b <= a -> 0 <= Int64.sub a b.
Proof.
  unfold timestamp, Int64.MaxInt64. intros Ha Hb Hle.
  rewrite sub_small; [lia |].
  unfold Int64.InRange, Int64.MinInt64, Int64.MaxInt64. lia.
Qed.

Lemma Sub_nonneg (a b : Z) : b <= a -> 0 <= time.Sub a b.
Proof.
  intros Hle. unfold time.Sub, time.minDuration, time.maxDuration,
    Int64.MinInt64, Int64.MaxInt64.
  destruct (Z.ltb_spec (a - b) (-9223372036854775808));
    [lia | destruct (Z.ltb_spec 9223372036854775807 (a - b)); lia].
Qed.

(** C3, as the code has it.  [Done] is a total function of the recorder
    state and the end instant.  [Blocked], [Connecting], [TLSHandshaking]
    and [Waiting] are zero as soon as one of their two timestamps is unset,
    [Receiving] is zero when first-response-byte is unset, and [Sending] is
    zero when request-written is unset.  When the recorded timestamps are
    Unix times from the epoch on and follow the order of the request's life,
    the six durations are non-negative. *)
Theorem Done_phases t done :
  let tr := Done t done in
  (gotConn t = 0 \/ getConn t = 0 -> Blocked tr = 0)
  /\ (connectDone t = 0 \/ connectStart t = 0 -> Connecting tr = 0)
  /\ (tlsHandshakeDone t = 0 \/ tlsHandshakeStart t = 0 ->
      TLSHandshaking tr = 0)
  /\ (wroteRequest t = 0 -> Sending tr = 0)
  /\ (wroteRequest t = 0 \/ gotFirstResponseByte t = 0 -> Waiting tr = 0)
  /\ (gotFirstResponseByte t = 0 -> Receiving tr = 0)
  /\ (timestamps t -> in_order t done ->
      0 <= Blocked tr /\ 0 <= Connecting tr /\ 0 <= TLSHandshaking tr
      /\ 0 <= Sending tr /\ 0 <= Waiting tr /\ 0 <= Receiving tr).
Proof.
  cbv zeta.
  rewrite Done_Blocked, Done_Connecting, Done_TLSHandshaking, Done_Sending,
    Done_Waiting, Done_Receiving.
  repeat apply conj.
  - intros [H | H]; apply nonzero_false in H; rewrite H;
      [| rewrite andb_false_r]; reflexivity.
  - intros [H | H]; apply nonzero_false in H; rewrite H;
      [| rewrite andb_false_r]; reflexivity.
  - intros [H | H]; apply nonzero_false in H; rewrite H;
      [| rewrite andb_false_r]; reflexivity.
  - intros H; apply nonzero_false in H; rewrite H; reflexivity.
  - intros [H | H]; apply nonzero_false in H; rewrite H;
      [| destruct (nonzero (wroteRequest t))]; reflexivity.
  - intros H; apply nonzero_false in H; rewrite H; reflexivity.
  - intros (Hgc & Hcs & Hcd & Hts & Htd & Hgot & Hwr & Hfb)
           (Ob & Oc & Ot & Osc & Ost & Ow & Or).
    unfold precedes in *.
    repeat apply conj.
    + destruct (nonzero (gotConn t)) eqn:E1, (nonzero (getConn t)) eqn:E2;
        cbn [andb]; try lia.
      apply nonzero_true in E1, E2. apply sub_nonneg; auto.
    + destruct (nonzero (connectDone t)) eqn:E1,
        (nonzero (connectStart t)) eqn:E2; cbn [andb]; try lia.
      apply nonzero_true in E1, E2. apply sub_nonneg; auto.
    + destruct (nonzero (tlsHandshakeDone t)) eqn:E1,
        (nonzero (tlsHandshakeStart t)) eqn:E2; cbn [andb]; try lia.
      apply nonzero_true in E1, E2. apply sub_nonneg; auto.
    + destruct (nonzero (wroteRequest t)) eqn:E1; [| lia].
      apply nonzero_true in E1.
      destruct (nonzero (tlsHandshakeDone t)) eqn:E2.
      * apply nonzero_true in E2. apply sub_nonneg; auto.
      * apply sub_nonneg; auto.
        destruct (Z.eq_dec (connectDone t) 0) as [E3 | E3];
          [rewrite E3; apply Hwr | auto].
    + destruct (nonzero (wroteRequest t)) eqn:E1; [| lia].
      destruct (nonzero (gotFirstResponseByte t)) eqn:E2; [| lia].
      apply nonzero_true in E1, E2. apply sub_nonneg; auto.
    + destruct (nonzero (gotFirstResponseByte t)) eqn:E2; [| lia].
      apply nonzero_true in E2. apply Sub_nonneg; auto.
Qed.

End Phases.

(** ** The hooks *)

Section Hooks.

Context {error net_Addr net_Conn tls_ConnectionState : Type}.
Variable RemoteAddr : net_Conn -> option net_Addr.

Implicit Types (t : @Tracer error net_Addr).
Implicit Types (ev : @Event error net_Conn tls_ConnectionState).
Implicit Types (calls : list (@Event error net_Conn tls_ConnectionState * Z)).
Implicit Types (clock done : Z).

(** Unfold one hook call down to the record of the new state. *)
Ltac hook_cases ev :=
  destruct ev as [? | ? ? | ? ? [?|] | | ? [?|] | [[?|] [|] ? ?] | [[?|]] | ];
  cbn [fire after GetConn ConnectStart ConnectDone TLSHandshakeStart
       TLSHandshakeDone GotConn WroteRequest GotFirstResponseByte
       addError Conn Reused Err].

(** *** Fields under compare-and-swap keep their first value *)

Lemma fire_keeps_connectStart t ev clock :
  connectStart t <> 0 ->
  connectStart (after (fire RemoteAddr t ev clock)) = connectStart t.
Proof.
  intros H. hook_cases ev; cbn; try reflexivity;
    apply CompareAndSwapInt64_set, H.
Qed.

Lemma fire_keeps_connectDone t ev clock :
  connectDone t <> 0 ->
  connectDone (after (fire RemoteAddr t ev clock)) = connectDone t.
Proof.
  intros H. hook_cases ev; cbn; try reflexivity;
    apply CompareAndSwapInt64_set, H.
Qed.

Lemma fire_keeps_wroteRequest t ev clock :
  wroteRequest t <> 0 ->
  wroteRequest (after (fire RemoteAddr t ev clock)) = wroteRequest t.
Proof.
  intros H. hook_cases ev; cbn; try reflexivity;
    apply CompareAndSwapInt64_set, H.
Qed.

(** A field that every call leaves alone once it is set is left alone by
    every sequence of calls. *)
Lemma run_keeps (f : @Tracer error net_Addr -> Z) :
  (forall t ev clock,
      f t <> 0 -> f (after (fire RemoteAddr t ev clock)) = f t) ->
  forall calls t, f t <> 0 -> f (after (run RemoteAddr t calls)) = f t.
Proof.
  intros Hstep. induction calls as [| [ev clock] rest IH]; intros t Hset.
  - reflexivity.
  - cbn [run]. specialize (Hstep t ev clock Hset).
    destruct (fire RemoteAddr t ev clock) as [t' | t']; cbn [after] in *.
    + rewrite IH; congruence.
    + exact Hstep.
Qed.

(** C5.  Once connect-started, connect-done or request-written holds a
    timestamp, no sequence of hook calls changes it, so each of them goes
    from unset to set at most once; the [Connecting] that [Done] derives
    stays what it was.  Hence the first call that records a timestamp
    wins: after [ConnectStart], [ConnectDone] or [WroteRequest] has stored
    the clock reading [c1] in its field, every later call, whatever its
    clock reading, leaves [c1] there. *)
Theorem first_write_wins t calls done :
  (connectStart t <> 0 ->
   connectStart (after (run RemoteAddr t calls)) = connectStart t)
  /\ (connectDone t <> 0 ->
      connectDone (after (run RemoteAddr t calls)) = connectDone t)
  /\ (wroteRequest t <> 0 ->
      wroteRequest (after (run RemoteAddr t calls)) = wroteRequest t)
  /\ (connectStart t <> 0 -> connectDone t <> 0 ->
      Connecting (Done (after (run RemoteAddr t calls)) done)
      = Connecting (Done t done))
  /\ (forall c1 network addr,
        connectStart t = 0 -> c1 <> 0 ->
        connectStart
          (after (run RemoteAddr (ConnectStart t network addr c1) calls))
        = c1)
  /\ (forall c1 network addr err,
        connectDone t = 0 -> c1 <> 0 ->
        connectDone
          (after (run RemoteAddr (ConnectDone t network addr err c1) calls))
        = c1)
  /\ (forall c1 info,
        wroteRequest t = 0 -> c1 <> 0 ->
        wroteRequest (after (run RemoteAddr (WroteRequest t info c1) calls))
        = c1).
Proof.
  pose proof (run_keeps connectStart fire_keeps_connectStart) as Ks.
  pose proof (run_keeps connectDone fire_keeps_connectDone) as Kd.
  pose proof (run_keeps wroteRequest fire_keeps_wroteRequest) as Kw.
  repeat apply conj; auto.
  - intros Hs Hd. rewrite !Done_Connecting, Ks, Kd; auto.
  - intros c1 network addr H0 Hc.
    assert (E : connectStart (ConnectStart t network addr c1) = c1)
      by (cbn; rewrite H0; reflexivity).
    rewrite Ks; rewrite E; auto.
  - intros c1 network addr err H0 Hc.
    assert (E : connectDone (ConnectDone t network addr err c1) = c1)
      by (destruct err; cbn; rewrite H0; reflexivity).
    rewrite Kd; rewrite E; auto.
  - intros c1 [err] H0 Hc.
    assert (E : wroteRequest (WroteRequest t (mkWroteRequestInfo err) c1) = c1)
      by (destruct err; cbn; rewrite H0; reflexivity).
    rewrite Kw; rewrite E; auto.
Qed.

(** *** Reused connections *)

(** C4.  When [GotConn] reports a reused connection while connect-started
    and connect-done are unset, it returns with both set to the clock
    reading of the call, which is also the connection-obtained time, and
    [Done] then derives [Connecting = 0]; unless that reading is 0, no later
    sequence of calls changes this. *)
Theorem GotConn_reused_connecting t info conn clock :
  Conn info = Some conn -> Reused info = true ->
  connectStart t = 0 -> connectDone t = 0 ->
  exists t',
    GotConn RemoteAddr t info clock = Returned t'
    /\ gotConn t' = clock /\ connectStart t' = clock
    /\ connectDone t' = clock /\ connReused t' = true
    /\ (forall done, Connecting (Done t' done) = 0)
    /\ (clock <> 0 -> forall calls done,
          Connecting (Done (after (run RemoteAddr t' calls)) done) = 0).
Proof.
  intros Hconn Hreused Hs Hd.
  assert (E : GotConn RemoteAddr t info clock
              = Returned
                  (mkTracer (getConn t) clock clock (tlsHandshakeStart t)
                     (tlsHandshakeDone t) clock (wroteRequest t)
                     (gotFirstResponseByte t) true (RemoteAddr conn)
                     (protoErrors t))).
  { unfold GotConn. rewrite Hconn. cbn. rewrite Hreused, Hs, Hd.
    reflexivity. }
  eexists. split; [exact E |].
  assert (Hzero : forall done' (u : @Tracer error net_Addr),
             connectStart u = clock -> connectDone u = clock ->
             Connecting (Done u done') = 0).
  { intros done' u Eu1 Eu2. rewrite Done_Connecting, Eu1, Eu2, sub_diag.
    destruct (nonzero clock); reflexivity. }
  repeat apply conj; try reflexivity.
  - intros done. apply Hzero; reflexivity.
  - intros Hclock calls done. apply Hzero.
    + rewrite (run_keeps connectStart fire_keeps_connectStart); auto.
    + rewrite (run_keeps connectDone fire_keeps_connectDone); auto.
Qed.

(** *** Errors *)

Lemma fire_protoErrors t ev clock :
  protoErrors (after (fire RemoteAddr t ev clock))
  = protoErrors t ++ from_option (fun e => [e]) [] (error_of ev).
Proof.
  hook_cases ev; cbn; rewrite ?app_nil_r; reflexivity.
Qed.

Lemma fire_returns t ev clock :
  has_conn ev = true -> returns (fire RemoteAddr t ev clock) = true.
Proof.
  hook_cases ev; cbn; try reflexivity; try (intros H; discriminate H).
Qed.

Lemma run_protoErrors calls : forall t,
  forallb has_conn (map fst calls) = true ->
  exists t', run RemoteAddr t calls = Returned t'
             /\ protoErrors t' = protoErrors t ++ errors_of calls.
Proof.
  induction calls as [| [ev clock] rest IH]; intros t Hconn.
  - exists t. split; [reflexivity |]. cbn. rewrite app_nil_r. reflexivity.
  - cbn in Hconn. apply andb_true_iff in Hconn as [Hev Hrest].
    pose proof (fire_returns t ev clock Hev) as Hret.
    pose proof (fire_protoErrors t ev clock) as Herr.
    cbn [run]. destruct (fire RemoteAddr t ev clock) as [t1 | t1];
      [| discriminate].
    cbn [after] in Herr.
    destruct (IH t1 Hrest) as (t' & Hrun & Hlist).
    exists t'. split; [exact Hrun |].
    rewrite Hlist, Herr, <- app_assoc. f_equal.
    unfold errors_of. cbn [omap list_omap fst].
    destruct (error_of ev); reflexivity.
Qed.

Lemma run_protoErrors_prefix calls : forall t,
  protoErrors t `prefix_of` protoErrors (after (run RemoteAddr t calls)).
Proof.
  induction calls as [| [ev clock] rest IH]; intros t.
  - reflexivity.
  - cbn [run]. pose proof (fire_protoErrors t ev clock) as Herr.
    destruct (fire RemoteAddr t ev clock) as [t1 | t1]; cbn [after] in *.
    + etransitivity; [| apply IH]. rewrite Herr. apply prefix_app_r.
      reflexivity.
    + rewrite Herr. apply prefix_app_r. reflexivity.
Qed.

(** C7.  [ConnectDone], [TLSHandshakeDone] and [WroteRequest], called with
    a non-nil error, return with that error appended to [protoErrors], in
    every state; when connect-done or request-written is already set the
    timestamp stays and the error is appended all the same.  Every hook call
    leaves [protoErrors] as it was or with the call's error at its end, so
    the collection only grows: what it held stays a prefix through any
    sequence of calls, and a sequence in which [GotConn] always gets a
    connection returns with the handed-over errors appended in call
    order. *)
Theorem errors_collected t calls :
  (forall network addr e clock,
      fire (tls_ConnectionState:=tls_ConnectionState) RemoteAddr t
        (EvConnectDone network addr (Some e)) clock
      = Returned (ConnectDone t network addr (Some e) clock)
      /\ protoErrors (ConnectDone t network addr (Some e) clock)
         = protoErrors t ++ [e]
      /\ (connectDone t <> 0 ->
          connectDone (ConnectDone t network addr (Some e) clock)
          = connectDone t))
  /\ (forall (state : tls_ConnectionState) e clock,
        fire RemoteAddr t (EvTLSHandshakeDone state (Some e)) clock
        = Returned (TLSHandshakeDone t state (Some e) clock)
        /\ protoErrors (TLSHandshakeDone t state (Some e) clock)
           = protoErrors t ++ [e])
  /\ (forall info e clock,
        Err info = Some e ->
        fire (tls_ConnectionState:=tls_ConnectionState) RemoteAddr t
          (EvWroteRequest info) clock
        = Returned (WroteRequest t info clock)
        /\ protoErrors (WroteRequest t info clock) = protoErrors t ++ [e]
        /\ (wroteRequest t <> 0 ->
            wroteRequest (WroteRequest t info clock) = wroteRequest t))
  /\ (forall ev clock,
        protoErrors (after (fire RemoteAddr t ev clock))
        = protoErrors t ++ from_option (fun e => [e]) [] (error_of ev))
  /\ protoErrors t `prefix_of` protoErrors (after (run RemoteAddr t calls))
  /\ (forallb has_conn (map fst calls) = true ->
      exists t', run RemoteAddr t calls = Returned t'
                 /\ protoErrors t' = protoErrors t ++ errors_of calls).
Proof.
  repeat apply conj.
  - intros network addr e clock. repeat apply conj; try reflexivity.
    intros H. cbn. apply CompareAndSwapInt64_set, H.
  - intros state e clock. split; reflexivity.
  - intros [err] e clock Herr. cbn in Herr. subst err.
    repeat apply conj; try reflexivity.
    intros H. cbn. apply CompareAndSwapInt64_set, H.
  - apply fire_protoErrors.
  - apply run_protoErrors_prefix.
  - apply run_protoErrors.
Qed.

(** *** Hooks that store unconditionally *)

(** C10.  [GetConn], [TLSHandshakeStart], [TLSHandshakeDone], [GotConn] and
    [GotFirstResponseByte] store the clock reading of the call whatever the
    field held: called twice, the field holds the reading of the second
    call. *)
Theorem last_write_wins t (c1 c2 : Z) :
  (forall hp1 hp2, getConn (GetConn (GetConn t hp1 c1) hp2 c2) = c2)
  /\ tlsHandshakeStart (TLSHandshakeStart (TLSHandshakeStart t c1) c2) = c2
  /\ (forall (s1 s2 : tls_ConnectionState) e1 e2,
        tlsHandshakeDone
          (TLSHandshakeDone (TLSHandshakeDone t s1 e1 c1) s2 e2 c2) = c2)
  /\ (forall i1 i2,
        gotConn
          (after (GotConn RemoteAddr
                    (after (GotConn RemoteAddr t i1 c1)) i2 c2)) = c2)
  /\ gotFirstResponseByte
       (GotFirstResponseByte (GotFirstResponseByte t c1) c2) = c2.
Proof.
  repeat apply conj; try reflexivity.
  - intros s1 s2 e1 e2. destruct e1, e2; reflexivity.
  - intros i1 [[conn2|] [|] w2 d2]; reflexivity.
Qed.

End Hooks.

(** ** A request from start to end *)

Section Scenario.

Context {error net_Addr net_Conn tls_ConnectionState : Type}.
Variable RemoteAddr : net_Conn -> option net_Addr.

Lemma sub_after (a d : Z) :
  0 < a -> 0 <= d -> a + d <= Int64.MaxInt64 -> Int64.sub (a + d) a = d.
Proof.
  intros Ha Hd Hmax. rewrite sub_small; [lia |].
  unfold Int64.InRange, Int64.MinInt64, Int64.MaxInt64 in *. lia.
Qed.

Lemma sub_between (a d1 d2 : Z) :
  0 < a -> 0 <= d1 <= d2 -> a + d2 <= Int64.MaxInt64 ->
  Int64.sub (a + d2) (a + d1) = d2 - d1.
Proof.
  intros Ha Hd Hmax. rewrite sub_small; [lia |].
  unfold Int64.InRange, Int64.MinInt64, Int64.MaxInt64 in *. lia.
Qed.

Lemma Sub_between (a d1 d2 : Z) :
  0 <= d1 <= d2 -> d2 <= Int64.MaxInt64 ->
  time.Sub (a + d2) (a + d1) = d2 - d1.
Proof.
  intros Hd Hmax. rewrite Sub_small; [lia |].
  unfold Int64.InRange, Int64.MinInt64, Int64.MaxInt64 in *. lia.
Qed.

Lemma nonzero_pos (x : Z) : 0 < x -> nonzero x = true.
Proof. intros H. apply nonzero_true. lia. Qed.

(** C9, as the code has it.  In the plaintext, fresh-connection scenario
    started at a clock reading [t0] after the epoch whose last instant an
    [int64] holds, the hooks all return and [Done], called at [t0 + 60ms],
    yields blocked = 10ms (connection-obtained minus connection-requested),
    connecting = 10ms, tlsHandshaking = 0, sending = 1ms, waiting = 39ms,
    receiving = 10ms and duration = 50ms. *)
Theorem plaintext_fresh_trail (t0 : Z) (conn : net_Conn) :
  0 < t0 -> t0 + 60 * time.Millisecond <= Int64.MaxInt64 ->
  exists t : @Tracer error net_Addr,
    run (tls_ConnectionState:=tls_ConnectionState) RemoteAddr newTracer
      (plaintext_fresh t0 conn) = Returned t
    /\ let tr := Done t (t0 + 60 * time.Millisecond) in
       Blocked tr = 10 * time.Millisecond
       /\ Connecting tr = 10 * time.Millisecond
       /\ TLSHandshaking tr = 0
       /\ Sending tr = 1 * time.Millisecond
       /\ Waiting tr = 39 * time.Millisecond
       /\ Receiving tr = 10 * time.Millisecond
       /\ Duration tr = 50 * time.Millisecond.
Proof.
  intros Hpos Hmax.
  change (60 * time.Millisecond) with 60000000 in *.
  unfold Int64.MaxInt64 in Hmax.
  set (t := @mkTracer error net_Addr t0 t0 (t0 + 10000000) 0 0
              (t0 + 10000000) (t0 + 11000000) (t0 + 50000000) false
              (RemoteAddr conn) []).
  exists t. split; [reflexivity |]. cbv zeta.
  change (10 * time.Millisecond) with 10000000.
  change (50 * time.Millisecond) with 50000000.
  change (39 * time.Millisecond) with 39000000.
  change (1 * time.Millisecond) with 1000000.
  assert (Hb : Blocked (Done t (t0 + 60000000)) = 10000000).
  { rewrite Done_Blocked. subst t. cbn [gotConn getConn].
    rewrite !nonzero_pos by lia. cbn [andb].
    apply sub_after; unfold Int64.MaxInt64; lia. }
  assert (Hc : Connecting (Done t (t0 + 60000000)) = 10000000).
  { rewrite Done_Connecting. subst t. cbn [connectDone connectStart].
    rewrite !nonzero_pos by lia. cbn [andb].
    apply sub_after; unfold Int64.MaxInt64; lia. }
  assert (Ht : TLSHandshaking (Done t (t0 + 60000000)) = 0).
  { rewrite Done_TLSHandshaking. reflexivity. }
  assert (Hs : Sending (Done t (t0 + 60000000)) = 1000000).
  { rewrite Done_Sending. subst t.
    cbn [wroteRequest tlsHandshakeDone connectDone].
    rewrite nonzero_pos by lia. change (nonzero 0) with false. cbv iota.
    rewrite sub_between; unfold Int64.MaxInt64; lia. }
  assert (Hw : Waiting (Done t (t0 + 60000000)) = 39000000).
  { rewrite Done_Waiting. subst t. cbn [wroteRequest gotFirstResponseByte].
    rewrite !nonzero_pos by lia.
    rewrite sub_between; unfold Int64.MaxInt64; lia. }
  assert (Hr : Receiving (Done t (t0 + 60000000)) = 10000000).
  { rewrite Done_Receiving. subst t. cbn [gotFirstResponseByte].
    rewrite nonzero_pos by lia.
    rewrite Sub_between; unfold Int64.MaxInt64; lia. }
  repeat apply conj; trivial.
  rewrite Done_Duration, Hs, Hw, Hr. reflexivity.
Qed.

(** Without a TLS handshake and without connect-done, [Sending] is the
    distance of request-written from the Unix epoch. *)
Lemma Done_Sending_epoch (t : @Tracer error net_Addr) (done : Z) :
  wroteRequest t <> 0 -> timestamp (wroteRequest t) ->
  tlsHandshakeDone t = 0 -> connectDone t = 0 ->
  Sending (Done t done) = wroteRequest t.
Proof.
  intros Hset [Hlo Hhi] Htls Hcd.
  rewrite Done_Sending, Htls, Hcd.
  apply nonzero_true in Hset. rewrite Hset. change (nonzero 0) with false.
  cbv iota. rewrite sub_small; [lia |].
  unfold Int64.InRange, Int64.MinInt64, Int64.MaxInt64 in *. lia.
Qed.

End Scenario.

(** ** Samples *)

Section SampleFacts.

Context {net_Addr float64 : Type}.
Variable D : Z -> float64.
Variable float64_of_Z : Z -> float64.

(** C8.  For every trail and tag mapping, [Samples] is a sequence of eight
    samples whose metrics are, in this order, request count, request
    duration, blocked, connecting, sending, waiting, receiving and TLS
    handshaking, eight different metrics; their values are 1 and [stats.D]
    of the corresponding duration of the trail; each is stamped with the
    trail's [EndTime] and holds the tag mapping it was given.  The result
    depends on nothing else, [Samples] being a function of the trail and
    the tags. *)
Theorem Samples_fixed (tr : @Trail net_Addr) (tags : gmap string string) :
  let samples := Samples D float64_of_Z tr tags in
  length samples = 8%nat
  /\ map Metric samples
     = [ HTTPReqs; HTTPReqDuration; HTTPReqBlocked; HTTPReqConnecting;
         HTTPReqSending; HTTPReqWaiting; HTTPReqReceiving;
         HTTPReqTLSHandshaking ]
  /\ NoDup (map Metric samples)
  /\ map Value samples
     = [ float64_of_Z 1; D (Duration tr); D (Blocked tr);
         D (Connecting tr); D (Sending tr); D (Waiting tr);
         D (Receiving tr); D (TLSHandshaking tr) ]
  /\ Forall (fun s => Time s = EndTime tr /\ Tags s = tags) samples.
Proof.
  cbv zeta. unfold Samples. cbn [length map Metric Value].
  repeat apply conj; try reflexivity.
  - repeat (apply NoDup_cons_2;
            [rewrite ?elem_of_cons, elem_of_nil; intuition discriminate |]).
    apply NoDup_nil_2.
  - repeat (apply Forall_cons_2; [split; reflexivity |]).
    apply Forall_nil_2.
Qed.

End SampleFacts.

(** ** The statements at concrete requests *)

(** C2 at a request whose connect-done never fired: after the plaintext
    scenario without its [ConnectDone] call, request-written is set and
    neither tls-done nor connect-done is, and [Done] reports as [Sending]
    the whole Unix time of request-written, more than 47 years, where a
    clamp to zero would give 0. *)
Theorem Done_sending_base_unset :
  let t := run_string newTracer
             (delete 2%nat (plaintext_fresh some_clock "192.0.2.1:80")) in
  wroteRequest t = some_clock + 11 * time.Millisecond
  /\ tlsHandshakeDone t = 0
  /\ connectDone t = 0
  /\ Sending (Done t (some_clock + 60 * time.Millisecond))
     = some_clock + 11 * time.Millisecond
  /\ Sending (Done t (some_clock + 60 * time.Millisecond)) <> 0.
Proof.
  cbv zeta. repeat apply conj; try reflexivity.
  vm_compute. discriminate.
Qed.

(** C1 at a request whose connect-done never fired: after the plaintext
    scenario without its [ConnectDone] call neither connect-done nor
    tls-done was observed, so the events that [Sending] is measured between
    were not both seen.  [Duration] is the sum of the three phases, but
    [Sending] enters it with the whole Unix time of request-written: the
    total is more than 47 years where a [Sending] contributing zero would
    leave the 49ms of [Waiting] and [Receiving]. *)
Theorem Done_duration_base_unset :
  let t := run_string newTracer
             (delete 2%nat (plaintext_fresh some_clock "192.0.2.1:80")) in
  let tr := Done t (some_clock + 60 * time.Millisecond) in
  connectDone t = 0 /\ tlsHandshakeDone t = 0
  /\ Duration tr = Sending tr + Waiting tr + Receiving tr
  /\ Sending tr = some_clock + 11 * time.Millisecond
  /\ Waiting tr = 39 * time.Millisecond
  /\ Receiving tr = 10 * time.Millisecond
  /\ Duration tr = some_clock + 60 * time.Millisecond
  /\ Duration tr <> 0 + Waiting tr + Receiving tr.
Proof.
  cbv zeta. repeat apply conj; try reflexivity.
  vm_compute. discriminate.
Qed.

(** C3 fails as stated.  After [ConnectDone] and then, 10ms later, a
    [GotConn] that reports reuse, connect-started is synthesized after
    connect-done and [Connecting] is negative.  After the plaintext
    scenario without [ConnectDone], [Sending] is not zero although neither
    connect-done nor tls-done was observed. *)
Lemma Done_phases_counterexample :
  (let t := run_string newTracer
              [ (EvConnectDone "tcp" "192.0.2.1:80" None, some_clock);
                (EvGotConn (mkGotConnInfo (Some "192.0.2.1:80") true false 0),
                 some_clock + 10 * time.Millisecond) ] in
   Connecting (Done t (some_clock + 60 * time.Millisecond))
   = - (10 * time.Millisecond))
  /\ (let t := run_string newTracer
                 (delete 2%nat (plaintext_fresh some_clock "192.0.2.1:80")) in
      connectDone t = 0 /\ tlsHandshakeDone t = 0
      /\ Sending (Done t (some_clock + 60 * time.Millisecond)) <> 0).
Proof.
  cbv zeta. repeat apply conj; try reflexivity.
  vm_compute. discriminate.
Qed.

(** C9 fails as stated: at [t0 = some_clock] the scenario yields
    blocked = 10ms, so the seven values of the claim do not hold
    together. *)
Lemma plaintext_fresh_counterexample :
  let t := run_string newTracer
             (plaintext_fresh some_clock "192.0.2.1:80") in
  let tr := Done t (some_clock + 60 * time.Millisecond) in
  Blocked tr = 10 * time.Millisecond
  /\ ~ (Blocked tr = 0
        /\ Connecting tr = 10 * time.Millisecond
        /\ TLSHandshaking tr = 0
        /\ Sending tr = 1 * time.Millisecond
        /\ Waiting tr = 39 * time.Millisecond
        /\ Receiving tr = 10 * time.Millisecond
        /\ Duration tr = 50 * time.Millisecond).
Proof.
  cbv zeta. split; [reflexivity |].
  intros [H _]. vm_compute in H. discriminate H.
Qed.

(** The trail of the plaintext scenario: the sum of its three phases fits
    an [int64] and is its duration. *)
Lemma Done_duration_additive_witness :
  let t := run_string newTracer
             (plaintext_fresh some_clock "192.0.2.1:80") in
  let tr := Done t (some_clock + 60 * time.Millisecond) in
  Int64.InRange (Sending tr + Waiting tr + Receiving tr)
  /\ Duration tr = Sending tr + Waiting tr + Receiving tr.
Proof.
  cbv zeta.
  assert (Hfit : Int64.InRange
                   (Sending (Done (run_string newTracer
                      (plaintext_fresh some_clock "192.0.2.1:80"))
                      (some_clock + 60 * time.Millisecond))
                    + Waiting (Done (run_string newTracer
                      (plaintext_fresh some_clock "192.0.2.1:80"))
                      (some_clock + 60 * time.Millisecond))
                    + Receiving (Done (run_string newTracer
                      (plaintext_fresh some_clock "192.0.2.1:80"))
                      (some_clock + 60 * time.Millisecond)))).
  { vm_compute. split; discriminate. }
  split; [exact Hfit |].
  exact (proj1 (proj2 (Done_duration_additive
                         (run_string newTracer
                            (plaintext_fresh some_clock "192.0.2.1:80"))
                         (some_clock + 60 * time.Millisecond))) Hfit).
Defined.

(** The same trail starts 50ms before its end. *)
Lemma Done_start_time_witness :
  let t := run_string newTracer
             (plaintext_fresh some_clock "192.0.2.1:80") in
  let tr := Done t (some_clock + 60 * time.Millisecond) in
  Duration tr <> Int64.MinInt64
  /\ StartTime tr = EndTime tr - Duration tr.
Proof.
  cbv zeta.
  assert (Hmin : Duration (Done (run_string newTracer
                    (plaintext_fresh some_clock "192.0.2.1:80"))
                    (some_clock + 60 * time.Millisecond))
                 <> Int64.MinInt64).
  { vm_compute. discriminate. }
  split; [exact Hmin |].
  exact (proj1 (proj2 (proj2 (Done_start_time
                         (run_string newTracer
                            (plaintext_fresh some_clock "192.0.2.1:80"))
                         (some_clock + 60 * time.Millisecond)))) Hmin).
Defined.

(** The recorder state of the plaintext scenario holds timestamps in the
    order of the request's life, and its six phases are non-negative. *)
Lemma Done_phases_witness :
  let t := run_string newTracer
             (plaintext_fresh some_clock "192.0.2.1:80") in
  let done := some_clock + 60 * time.Millisecond in
  let tr := Done t done in
  timestamps t /\ in_order t done
  /\ 0 <= Blocked tr /\ 0 <= Connecting tr /\ 0 <= TLSHandshaking tr
  /\ 0 <= Sending tr /\ 0 <= Waiting tr /\ 0 <= Receiving tr.
Proof.
  cbv zeta.
  assert (Hts : timestamps (run_string newTracer
                   (plaintext_fresh some_clock "192.0.2.1:80"))).
  { unfold timestamps, timestamp. vm_compute.
    repeat split; discriminate. }
  assert (Hord : in_order (run_string newTracer
                    (plaintext_fresh some_clock "192.0.2.1:80"))
                   (some_clock + 60 * time.Millisecond)).
  { unfold in_order, precedes. vm_compute.
    repeat split; intros; discriminate. }
  split; [exact Hts |]. split; [exact Hord |].
  exact (proj2 (proj2 (proj2 (proj2 (proj2 (proj2
           (Done_phases
              (run_string newTracer
                 (plaintext_fresh some_clock "192.0.2.1:80"))
              (some_clock + 60 * time.Millisecond)))))))
           Hts Hord).
Defined.

(** A fresh recorder that gets a reused connection at [some_clock]. *)
Lemma GotConn_reused_connecting_witness :
  exists t' : tracer_string,
    GotConn RemoteAddr_string newTracer
      (mkGotConnInfo (Some "192.0.2.1:80") true true 0) some_clock
    = Returned t'
    /\ gotConn t' = some_clock /\ connectStart t' = some_clock
    /\ connectDone t' = some_clock /\ connReused t' = true
    /\ (forall done, Connecting (Done t' done) = 0)
    /\ (some_clock <> 0 ->
        forall (calls : list (event_string * Z)) done,
          Connecting (Done (after (run RemoteAddr_string t' calls)) done)
          = 0).
Proof.
  apply (GotConn_reused_connecting (tls_ConnectionState:=unit)
           RemoteAddr_string newTracer
           (mkGotConnInfo (Some "192.0.2.1:80") true true 0)
           "192.0.2.1:80" some_clock); reflexivity.
Defined.

(** Dual-stack dialing: a second [ConnectStart], 5ns after the first, does
    not move connect-started. *)
Lemma first_write_wins_witness :
  connectStart (@newTracer string string) = 0 /\ some_clock <> 0
  /\ connectStart
       (run_string (ConnectStart newTracer "tcp4" "192.0.2.1:80" some_clock)
          [ (EvConnectStart "tcp6" "[2001:db8::1]:80", some_clock + 5) ])
     = some_clock.
Proof.
  assert (Hclock : some_clock <> 0) by (vm_compute; discriminate).
  split; [reflexivity |]. split; [exact Hclock |].
  exact (proj1 (proj2 (proj2 (proj2 (proj2
           (first_write_wins (tls_ConnectionState:=unit) RemoteAddr_string
              newTracer
              [ (EvConnectStart "tcp6" "[2001:db8::1]:80", some_clock + 5) ]
              0)))))
           some_clock "tcp4" "192.0.2.1:80" eq_refl Hclock).
Defined.

(** Two failed dials and a failed write: the three errors are collected in
    call order although the second [ConnectDone] records no timestamp. *)
Lemma errors_collected_witness :
  forallb has_conn (map fst failed_dials) = true
  /\ exists t' : tracer_string,
       run RemoteAddr_string newTracer failed_dials = Returned t'
       /\ protoErrors t'
          = protoErrors (@newTracer string string) ++ errors_of failed_dials.
Proof.
  split; [reflexivity |].
  exact (proj2 (proj2 (proj2 (proj2 (proj2
           (errors_collected RemoteAddr_string newTracer failed_dials)))))
           eq_refl).
Defined.

(** The plaintext scenario started at [some_clock]. *)
Lemma plaintext_fresh_trail_witness :
  0 < some_clock
  /\ some_clock + 60 * time.Millisecond <= Int64.MaxInt64
  /\ exists t : tracer_string,
       run (tls_ConnectionState:=unit) RemoteAddr_string newTracer
         (plaintext_fresh some_clock "192.0.2.1:80") = Returned t
       /\ let tr := Done t (some_clock + 60 * time.Millisecond) in
          Blocked tr = 10 * time.Millisecond
          /\ Connecting tr = 10 * time.Millisecond
          /\ TLSHandshaking tr = 0
          /\ Sending tr = 1 * time.Millisecond
          /\ Waiting tr = 39 * time.Millisecond
          /\ Receiving tr = 10 * time.Millisecond
          /\ Duration tr = 50 * time.Millisecond.
Proof.
  assert (Hpos : 0 < some_clock) by reflexivity.
  assert (Hmax : some_clock + 60 * time.Millisecond <= Int64.MaxInt64)
    by (vm_compute; discriminate).
  split; [exact Hpos |]. split; [exact Hmax |].
  exact (plaintext_fresh_trail (tls_ConnectionState:=unit) RemoteAddr_string
           some_clock "192.0.2.1:80" Hpos Hmax).
Defined.

(** * Further properties of the recorder and of the derivation *)

Lemma wrap_add_idemp_r (a b : Z) :
  Int64.wrap (a + Int64.wrap b) = Int64.wrap (a + b).
Proof.
  replace (a + Int64.wrap b) with (Int64.wrap b + a) by lia.
  rewrite wrap_add_idemp_l. f_equal. lia.
Qed.

Lemma CompareAndSwapInt64_nonzero (cur new : Z) :
  new <> 0 -> fst (atomic.CompareAndSwapInt64 cur 0 new) <> 0.
Proof.
  intros H. unfold atomic.CompareAndSwapInt64.
  destruct (Z.eqb_spec cur 0); cbn [fst]; assumption.
Qed.

Lemma CompareAndSwapInt64_timestamp (cur new : Z) :
  timestamp cur -> timestamp new ->
  timestamp (fst (atomic.CompareAndSwapInt64 cur 0 new)).
Proof.
  intros Hc Hn. unfold atomic.CompareAndSwapInt64.
  destruct (Z.eqb_spec cur 0); cbn [fst]; assumption.
Qed.

Lemma sub_timestamps (a b : Z) :
  timestamp a -> timestamp b -> Int64.sub a b = a - b.
Proof.
  unfold timestamp, Int64.MaxInt64. intros Ha Hb. apply sub_small.
  unfold Int64.InRange, Int64.MinInt64, Int64.MaxInt64. lia.
Qed.

(** ** Where the measured duration begins *)

Section Origin.

Context {net_Addr error : Type}.
Implicit Types (t : @Tracer error net_Addr) (done : Z).

Lemma Done_Sending_base t done :
  wroteRequest t <> 0 ->
  Sending (Done t done) = Int64.sub (wroteRequest t) (sending_base t).
Proof.
  intros H. apply nonzero_true in H. rewrite Done_Sending, H.
  unfold sending_base. destruct (nonzero (tlsHandshakeDone t)); reflexivity.
Qed.

(** The three measured phases telescope, whatever the order of the
    timestamps: the wrap-arounds cancel. *)
Lemma Done_Duration_origin t done :
  gotFirstResponseByte t <> 0 ->
  Int64.InRange (done - gotFirstResponseByte t) ->
  Duration (Done t done) = Int64.wrap (done - request_origin t).
Proof.
  intros Hfb Hfit. rewrite Done_Duration, add_assoc_sum.
  rewrite Done_Sending, Done_Waiting, Done_Receiving.
  unfold request_origin, sending_base.
  apply nonzero_true in Hfb. rewrite Hfb, (Sub_small _ _ Hfit).
  destruct (nonzero (wroteRequest t)).
  - unfold Int64.sub.
    set (base := if nonzero (tlsHandshakeDone t)
                 then tlsHandshakeDone t else connectDone t).
    replace (if nonzero (tlsHandshakeDone t)
             then Int64.wrap (wroteRequest t - tlsHandshakeDone t)
             else Int64.wrap (wroteRequest t - connectDone t))
      with (Int64.wrap (wroteRequest t - base))
      by (subst base; destruct (nonzero (tlsHandshakeDone t)); reflexivity).
    rewrite <- Z.add_assoc, wrap_add_idemp_l.
    replace (wroteRequest t - base
             + (Int64.wrap (gotFirstResponseByte t - wroteRequest t)
                + (done - gotFirstResponseByte t)))
      with (Int64.wrap (gotFirstResponseByte t - wroteRequest t)
            + (wroteRequest t - base + (done - gotFirstResponseByte t)))
      by lia.
    rewrite wrap_add_idemp_l. f_equal. lia.
  - f_equal; lia.
Qed.

Lemma Done_StartTime_origin t done :
  gotFirstResponseByte t <> 0 ->
  Int64.InRange (done - gotFirstResponseByte t) ->
  Int64.MinInt64 < done - request_origin t <= Int64.MaxInt64 ->
  Duration (Done t done) = done - request_origin t
  /\ StartTime (Done t done) = request_origin t.
Proof.
  intros Hfb Hfit Hrange.
  assert (Hin : Int64.InRange (done - request_origin t))
    by (unfold Int64.InRange; lia).
  assert (Hd : Duration (Done t done) = done - request_origin t).
  { rewrite Done_Duration_origin by assumption. apply wrap_small, Hin. }
  split; [exact Hd |].
  rewrite Done_StartTime, Done_EndTime, Hd. unfold time.Add.
  rewrite (neg_small _ Hin) by lia. lia.
Qed.

(** X1.  Once a response byte was seen and [done] is within [int64] reach
    of it, [Duration] is the distance from the request's origin to [done],
    reduced to an [int64], whatever the order of the recorded timestamps:
    the origin is tls-done if set, else connect-done, when the request was
    written, and first-response-byte when it was not.  When that distance
    fits, [Duration] is exactly it and [StartTime] is the origin itself, so
    it does not depend on when [Done] is called; with request-written set
    and neither tls-done nor connect-done, [StartTime] is the Unix epoch. *)
Theorem Done_duration_telescopes t done :
  gotFirstResponseByte t <> 0 ->
  Int64.InRange (done - gotFirstResponseByte t) ->
  let tr := Done t done in
  Duration tr = Int64.wrap (done - request_origin t)
  /\ (Int64.MinInt64 < done - request_origin t <= Int64.MaxInt64 ->
      Duration tr = done - request_origin t
      /\ StartTime tr = request_origin t
      /\ (wroteRequest t <> 0 -> tlsHandshakeDone t = 0 ->
          connectDone t = 0 -> StartTime tr = time.Unix 0 0)).
Proof.
  intros Hfb Hfit. cbv zeta.
  split; [apply Done_Duration_origin; assumption |].
  intros Hrange.
  destruct (Done_StartTime_origin t done Hfb Hfit Hrange) as [Hd Hs].
  repeat apply conj; trivial.
  intros Hwr Htls Hcd. rewrite Hs. unfold request_origin, sending_base.
  apply nonzero_true in Hwr. rewrite Hwr, Htls, Hcd. reflexivity.
Qed.

(** X2.  [Duration] and [StartTime] leave connection setup out: two
    recorder states that agree on request-written, first-response-byte,
    tls-done and connect-done get the same [Sending], [Waiting],
    [Receiving], [Duration] and [StartTime] from [Done], whatever their
    connection-requested, connect-started, tls-start and
    connection-obtained timestamps are. *)
Theorem Done_duration_ignores_setup t t' done :
  wroteRequest t = wroteRequest t' ->
  gotFirstResponseByte t = gotFirstResponseByte t' ->
  tlsHandshakeDone t = tlsHandshakeDone t' ->
  connectDone t = connectDone t' ->
  Sending (Done t done) = Sending (Done t' done)
  /\ Waiting (Done t done) = Waiting (Done t' done)
  /\ Receiving (Done t done) = Receiving (Done t' done)
  /\ Duration (Done t done) = Duration (Done t' done)
  /\ StartTime (Done t done) = StartTime (Done t' done).
Proof.
  intros Hw Hf Ht Hc.
  assert (Hs : Sending (Done t done) = Sending (Done t' done))
    by (rewrite !Done_Sending, Hw, Ht, Hc; reflexivity).
  assert (Hwt : Waiting (Done t done) = Waiting (Done t' done))
    by (rewrite !Done_Waiting, Hw, Hf; reflexivity).
  assert (Hr : Receiving (Done t done) = Receiving (Done t' done))
    by (rewrite !Done_Receiving, Hf; reflexivity).
  assert (Hd : Duration (Done t done) = Duration (Done t' done))
    by (rewrite !Done_Duration, Hs, Hwt, Hr; reflexivity).
  repeat apply conj; trivial.
  rewrite !Done_StartTime, !Done_EndTime, Hd. reflexivity.
Qed.

(** X3.  [Blocked] spans the whole acquisition of the connection: when
    connection-requested and connection-obtained are both set and the
    setup timestamps are in order, [Blocked] is at least
    [Connecting + TLSHandshaking]. *)
Theorem Blocked_covers_setup t done :
  timestamps t -> setup_in_order t ->
  getConn t <> 0 -> gotConn t <> 0 ->
  let tr := Done t done in
  Blocked tr = gotConn t - getConn t
  /\ Connecting tr + TLSHandshaking tr <= Blocked tr.
Proof.
  intros (Hgc & Hcs & Hcd & Hts & Htd & Hgot & _ & _)
         (O0 & O1 & O2 & O3 & O4 & O5 & O6 & O7) Hget Hgotc.
  cbv zeta. rewrite Done_Blocked, Done_Connecting, Done_TLSHandshaking.
  rewrite (proj2 (nonzero_true _) Hget), (proj2 (nonzero_true _) Hgotc).
  cbn [andb]. rewrite !sub_timestamps by assumption.
  split; [reflexivity |].
  unfold precedes, timestamp in *.
  destruct (nonzero (connectDone t)) eqn:E1,
    (nonzero (connectStart t)) eqn:E2,
    (nonzero (tlsHandshakeDone t)) eqn:E3,
    (nonzero (tlsHandshakeStart t)) eqn:E4; cbn [andb];
    rewrite ?nonzero_true, ?nonzero_false in *; lia.
Qed.

End Origin.

(** ** Invariants of the recorder *)

Section Recorder.

Context {error net_Addr net_Conn tls_ConnectionState : Type}.
Variable RemoteAddr : net_Conn -> option net_Addr.

Implicit Types (t : @Tracer error net_Addr).
Implicit Types (ev : @Event error net_Conn tls_ConnectionState).
Implicit Types (calls : list (@Event error net_Conn tls_ConnectionState * Z)).
Implicit Types (clock done : Z).

Ltac hook_cases ev :=
  destruct ev as [? | ? ? | ? ? [?|] | | ? [?|] | [[?|] [|] ? ?] | [[?|]] | ];
  cbn [fire after strip_error returns];
  unfold GetConn, ConnectStart, ConnectDone, TLSHandshakeStart,
    TLSHandshakeDone, GotConn, WroteRequest, GotFirstResponseByte, addError;
  cbn [Conn Reused Err].

(** Reduce the reads of fields of an updated state. *)
Ltac fields :=
  cbn [getConn connectStart connectDone tlsHandshakeStart tlsHandshakeDone
       gotConn wroteRequest gotFirstResponseByte connReused connRemoteAddr
       protoErrors set_getConn set_connectStart set_connectDone
       set_tlsHandshakeStart set_tlsHandshakeDone set_gotConn
       set_wroteRequest set_gotFirstResponseByte set_connReused
       set_connRemoteAddr set_protoErrors after].

(** *** Timestamps stay timestamps *)

Lemma fire_timestamps t ev clock :
  timestamps t -> timestamp clock ->
  timestamps (after (fire RemoteAddr t ev clock)).
Proof.
  intros (H1 & H2 & H3 & H4 & H5 & H6 & H7 & H8) Hc.
  hook_cases ev; fields; unfold timestamps; fields;
    repeat (split;
            [first [ assumption
                   | apply CompareAndSwapInt64_timestamp; assumption ] |]);
    first [ assumption | apply CompareAndSwapInt64_timestamp; assumption ].
Qed.

(** X4.  Hook calls whose clock readings are Unix times from the epoch on
    keep every timestamp field a non-negative [int64]: from such a state,
    and so from the zero [Tracer], every sequence of calls, returning or
    panicking, leaves such a state. *)
Theorem run_timestamps calls : forall t,
  timestamps t -> Forall (fun call => timestamp (snd call)) calls ->
  timestamps (after (run RemoteAddr t calls)).
Proof.
  induction calls as [| [ev clock] rest IH]; intros t Ht Hclocks.
  - exact Ht.
  - apply Forall_cons in Hclocks as [Hc Hrest]. cbn [snd] in Hc.
    cbn [run]. pose proof (fire_timestamps t ev clock Ht Hc) as Hstep.
    destruct (fire RemoteAddr t ev clock) as [t' | t']; cbn [after] in *.
    + apply IH; assumption.
    + exact Hstep.
Qed.

(** *** Errors and timing are independent *)

Lemma fire_strip_error t1 t2 ev clock :
  set_protoErrors [] t1 = set_protoErrors [] t2 ->
  set_protoErrors [] (after (fire RemoteAddr t1 ev clock))
  = set_protoErrors [] (after (fire RemoteAddr t2 (strip_error ev) clock))
  /\ returns (fire RemoteAddr t1 ev clock)
     = returns (fire RemoteAddr t2 (strip_error ev) clock).
Proof.
  destruct t1, t2. intros H. injection H as -> -> -> -> -> -> -> -> -> ->.
  hook_cases ev; split; reflexivity.
Qed.

Lemma run_strip_errors calls : forall t1 t2,
  set_protoErrors [] t1 = set_protoErrors [] t2 ->
  set_protoErrors [] (after (run RemoteAddr t1 calls))
  = set_protoErrors [] (after (run RemoteAddr t2 (strip_errors calls)))
  /\ returns (run RemoteAddr t1 calls)
     = returns (run RemoteAddr t2 (strip_errors calls)).
Proof.
  induction calls as [| [ev clock] rest IH]; intros t1 t2 Hsame.
  - split; [exact Hsame | reflexivity].
  - cbn [strip_errors map fst snd run].
    destruct (fire_strip_error t1 t2 ev clock Hsame) as [Hstate Hret].
    destruct (fire RemoteAddr t1 ev clock) as [u1 | u1],
      (fire RemoteAddr t2 (strip_error ev) clock) as [u2 | u2];
      cbn [after returns] in *; try discriminate.
    + apply IH, Hstate.
    + split; [exact Hstate | reflexivity].
Qed.

Lemma Done_set_protoErrors t errs done :
  Done (set_protoErrors errs t) done = Done t done.
Proof. rewrite !Done_unfold. reflexivity. Qed.

(** X5.  The errors handed to the hooks never reach the timing: a sequence
    of calls and the same sequence with every error replaced by nil return
    or panic alike, leave the same timestamps, reuse flag and remote
    address, and [Done] derives the same trail from both. *)
Theorem errors_do_not_change_trail t calls done :
  returns (run RemoteAddr t calls)
  = returns (run RemoteAddr t (strip_errors calls))
  /\ set_protoErrors [] (after (run RemoteAddr t calls))
     = set_protoErrors [] (after (run RemoteAddr t (strip_errors calls)))
  /\ protoErrors (after (run RemoteAddr t (strip_errors calls)))
     = protoErrors t
  /\ Done (after (run RemoteAddr t calls)) done
     = Done (after (run RemoteAddr t (strip_errors calls))) done.
Proof.
  destruct (run_strip_errors calls t t eq_refl) as [Hstate Hret].
  repeat apply conj; trivial.
  - clear Hstate Hret. revert t.
    induction calls as [| [ev clock] rest IH]; intros t; [reflexivity |].
    cbn [strip_errors map fst snd run].
    assert (Hkeep : protoErrors
                      (after (fire RemoteAddr t (strip_error ev) clock))
                    = protoErrors t)
      by (hook_cases ev; reflexivity).
    destruct (fire RemoteAddr t (strip_error ev) clock) as [u | u];
      cbn [after] in *; [| exact Hkeep].
    rewrite <- Hkeep. apply IH.
  - rewrite <- (Done_set_protoErrors (after (run RemoteAddr t calls)) []),
      Hstate.
    apply Done_set_protoErrors.
Qed.

(** *** Reused connections have a base *)

Lemma fire_reused_base t t' ev clock :
  clock <> 0 ->
  (connReused t = true -> connectStart t <> 0 /\ connectDone t <> 0) ->
  fire RemoteAddr t ev clock = Returned t' ->
  connReused t' = true -> connectStart t' <> 0 /\ connectDone t' <> 0.
Proof.
  intros Hclock Hinv.
  hook_cases ev; intros Hfire; try discriminate Hfire;
    injection Hfire as <-; fields; intros Hr;
    try discriminate Hr;
    try (destruct (Hinv Hr) as [Hs Hd]);
    try (split; trivial;
         first [ apply CompareAndSwapInt64_nonzero; assumption
               | rewrite CompareAndSwapInt64_set; assumption ]).
Qed.

Lemma run_reused_base calls : forall t t',
  Forall (fun call => snd call <> 0) calls ->
  (connReused t = true -> connectStart t <> 0 /\ connectDone t <> 0) ->
  run RemoteAddr t calls = Returned t' ->
  connReused t' = true -> connectStart t' <> 0 /\ connectDone t' <> 0.
Proof.
  induction calls as [| [ev clock] rest IH]; intros t t' Hclocks Hinv Hrun.
  - injection Hrun as <-. exact Hinv.
  - apply Forall_cons in Hclocks as [Hc Hrest]. cbn [snd] in Hc.
    cbn [run] in Hrun.
    destruct (fire RemoteAddr t ev clock) as [u | u] eqn:Hfire;
      [| discriminate Hrun].
    apply (IH u t' Hrest); [| exact Hrun].
    apply (fire_reused_base t u ev clock Hc Hinv Hfire).
Qed.

(** X6.  In every state that a returning sequence of hook calls with
    non-zero clock readings reaches from the zero [Tracer], a set reuse
    flag comes with connect-started and connect-done set.  For a reused
    connection [Sending] is hence measured from a recorded instant,
    tls-done or connect-done, never from the Unix epoch. *)
Theorem reused_has_base calls t' done :
  Forall (fun call => snd call <> 0) calls ->
  run RemoteAddr newTracer calls = Returned t' ->
  connReused t' = true ->
  connectStart t' <> 0 /\ connectDone t' <> 0
  /\ sending_base t' <> 0
  /\ (wroteRequest t' <> 0 ->
      Sending (Done t' done)
      = Int64.sub (wroteRequest t') (sending_base t')).
Proof.
  intros Hclocks Hrun Hreused.
  destruct (run_reused_base calls newTracer t' Hclocks) as [Hs Hd];
    trivial; [intros H; discriminate H |].
  repeat apply conj; trivial.
  - unfold sending_base.
    destruct (nonzero (tlsHandshakeDone t')) eqn:E; [| exact Hd].
    apply nonzero_true, E.
  - apply Done_Sending_base.
Qed.

End Recorder.

(** ** Whole requests *)

Section Lifecycles.

Context {error net_Addr net_Conn tls_ConnectionState : Type}.
Variable RemoteAddr : net_Conn -> option net_Addr.

Lemma sub_recorded (a b : Z) :
  recorded a -> recorded b -> Int64.sub a b = a - b.
Proof.
  unfold recorded, Int64.MaxInt64. intros Ha Hb. apply sub_small.
  unfold Int64.InRange, Int64.MinInt64, Int64.MaxInt64. lia.
Qed.

Lemma nonzero_recorded (c : Z) : recorded c -> nonzero c = true.
Proof. intros [H _]. apply nonzero_pos, H. Qed.

Lemma recorded_reach (c done : Z) :
  recorded c -> timestamp done ->
  Int64.InRange (done - c) /\ Int64.MinInt64 < done - c <= Int64.MaxInt64.
Proof.
  unfold recorded, timestamp, Int64.InRange, Int64.MinInt64, Int64.MaxInt64.
  lia.
Qed.

(** X8.  A TLS request over a fresh connection, each hook firing once at
    clock readings that are Unix times after the epoch, in any order:
    every call returns, [Done] yields each phase as the plain difference of
    its two timestamps, [Sending] counted from tls-done and not from
    connect-done, and the trail starts at tls-done, lasts until [done] and
    carries the remote address of the connection. *)
Theorem tls_fresh_trail (c0 c1 c2 c3 c4 c5 c6 c7 done : Z)
    (conn : net_Conn) (state : tls_ConnectionState) :
  recorded c0 -> recorded c1 -> recorded c2 -> recorded c3 ->
  recorded c4 -> recorded c5 -> recorded c6 -> recorded c7 ->
  timestamp done ->
  exists t : @Tracer error net_Addr,
    run RemoteAddr newTracer (tls_fresh c0 c1 c2 c3 c4 c5 c6 c7 conn state)
    = Returned t
    /\ let tr := Done t done in
       Blocked tr = c5 - c0
       /\ Connecting tr = c2 - c1
       /\ TLSHandshaking tr = c4 - c3
       /\ Sending tr = c6 - c4
       /\ Waiting tr = c7 - c6
       /\ Receiving tr = done - c7
       /\ Duration tr = done - c4
       /\ StartTime tr = c4
       /\ EndTime tr = done
       /\ ConnReused tr = false
       /\ ConnRemoteAddr tr = RemoteAddr conn.
Proof.
  intros H0 H1 H2 H3 H4 H5 H6 H7 Hdone.
  set (t := @mkTracer error net_Addr c0 c1 c2 c3 c4 c5 c6 c7 false
              (RemoteAddr conn) []).
  exists t. split; [reflexivity |]. cbv zeta.
  destruct (recorded_reach c7 done H7 Hdone) as [Hfit _].
  destruct (recorded_reach c4 done H4 Hdone) as [_ Hrange].
  assert (Horigin : request_origin t = c4).
  { unfold request_origin, sending_base. subst t.
    cbn [wroteRequest tlsHandshakeDone].
    rewrite !nonzero_recorded by assumption. reflexivity. }
  assert (Hfb : gotFirstResponseByte t <> 0)
    by (subst t; cbn [gotFirstResponseByte]; unfold recorded in H7; lia).
  destruct (Done_StartTime_origin t done Hfb Hfit) as [Hd Hs];
    [rewrite Horigin; exact Hrange |].
  rewrite Horigin in Hd, Hs.
  rewrite Done_Blocked, Done_Connecting, Done_TLSHandshaking, Done_Sending,
    Done_Waiting, Done_Receiving, Done_EndTime, Hd, Hs.
  rewrite Done_unfold. subst t.
  cbn [getConn connectStart connectDone tlsHandshakeStart tlsHandshakeDone
       gotConn wroteRequest gotFirstResponseByte connReused connRemoteAddr
       ConnReused ConnRemoteAddr].
  rewrite !nonzero_recorded by assumption. cbn [andb].
  rewrite !sub_recorded by assumption. rewrite (Sub_small _ _ Hfit).
  repeat apply conj; reflexivity.
Qed.

(** X9.  A request over a reused connection: [GetConn], a [GotConn] that
    reports reuse, [WroteRequest] and [GotFirstResponseByte], at clock
    readings that are Unix times after the epoch.  Every call returns;
    [Connecting] and [TLSHandshaking] are zero, [Blocked] is the wait for
    the connection, [Sending] counts from the instant the connection was
    obtained, and the trail starts at that instant and is marked reused. *)
Theorem reused_request_trail (c0 c1 c2 c3 done : Z) (conn : net_Conn)
    (idle : Z) :
  recorded c0 -> recorded c1 -> recorded c2 -> recorded c3 ->
  timestamp done ->
  exists t : @Tracer error net_Addr,
    run (tls_ConnectionState:=tls_ConnectionState) RemoteAddr newTracer
      (reused_request c0 c1 c2 c3 conn idle) = Returned t
    /\ let tr := Done t done in
       Blocked tr = c1 - c0
       /\ Connecting tr = 0
       /\ TLSHandshaking tr = 0
       /\ Sending tr = c2 - c1
       /\ Waiting tr = c3 - c2
       /\ Receiving tr = done - c3
       /\ Duration tr = done - c1
       /\ StartTime tr = c1
       /\ EndTime tr = done
       /\ ConnReused tr = true
       /\ ConnRemoteAddr tr = RemoteAddr conn.
Proof.
  intros H0 H1 H2 H3 Hdone.
  set (t := @mkTracer error net_Addr c0 c1 c1 0 0 c1 c2 c3 true
              (RemoteAddr conn) []).
  exists t. split; [reflexivity |]. cbv zeta.
  destruct (recorded_reach c3 done H3 Hdone) as [Hfit _].
  destruct (recorded_reach c1 done H1 Hdone) as [_ Hrange].
  assert (Horigin : request_origin t = c1).
  { unfold request_origin, sending_base. subst t.
    cbn [wroteRequest tlsHandshakeDone connectDone].
    rewrite !nonzero_recorded by assumption. reflexivity. }
  assert (Hfb : gotFirstResponseByte t <> 0)
    by (subst t; cbn [gotFirstResponseByte]; unfold recorded in H3; lia).
  destruct (Done_StartTime_origin t done Hfb Hfit) as [Hd Hs];
    [rewrite Horigin; exact Hrange |].
  rewrite Horigin in Hd, Hs.
  rewrite Done_Blocked, Done_Connecting, Done_TLSHandshaking, Done_Sending,
    Done_Waiting, Done_Receiving, Done_EndTime, Hd, Hs.
  rewrite Done_unfold. subst t.
  cbn [getConn connectStart connectDone tlsHandshakeStart tlsHandshakeDone
       gotConn wroteRequest gotFirstResponseByte connReused connRemoteAddr
       ConnReused ConnRemoteAddr].
  change (nonzero 0) with false.
  rewrite !nonzero_recorded by assumption. cbn [andb].
  rewrite sub_diag, !sub_recorded by assumption.
  rewrite (Sub_small _ _ Hfit).
  repeat apply conj; reflexivity.
Qed.

End Lifecycles.

(** ** The further properties at concrete requests *)

Lemma recorded_after_some_clock (d : Z) :
  0 <= d <= 1000000000 -> recorded (some_clock + d).
Proof. unfold recorded, some_clock, Int64.MaxInt64. lia. Qed.

(** The plaintext scenario, ended 70ms after it began: the trail starts at
    connect-done. *)
Lemma Done_duration_telescopes_witness :
  let done := some_clock + 70000000 in
  gotFirstResponseByte plaintext_state <> 0
  /\ Int64.InRange (done - gotFirstResponseByte plaintext_state)
  /\ Int64.MinInt64 < done - request_origin plaintext_state
     <= Int64.MaxInt64
  /\ Duration (Done plaintext_state done) = 60000000
  /\ StartTime (Done plaintext_state done) = connectDone plaintext_state.
Proof.
  cbv zeta.
  assert (Hfb : gotFirstResponseByte plaintext_state <> 0)
    by (vm_compute; discriminate).
  assert (Hfit : Int64.InRange
                   (some_clock + 70000000
                    - gotFirstResponseByte plaintext_state))
    by (vm_compute; split; discriminate).
  assert (Hrange : Int64.MinInt64
                   < some_clock + 70000000 - request_origin plaintext_state
                   <= Int64.MaxInt64)
    by (vm_compute; split; [reflexivity | discriminate]).
  split; [exact Hfb |]. split; [exact Hfit |]. split; [exact Hrange |].
  split.
  - exact (proj1 (proj2 (Done_duration_telescopes plaintext_state
                           (some_clock + 70000000) Hfb Hfit) Hrange)).
  - exact (proj1 (proj2 (proj2 (Done_duration_telescopes plaintext_state
                                  (some_clock + 70000000) Hfb Hfit)
                           Hrange))).
Defined.

(** A late [GetConn] and [TLSHandshakeStart] do not move the duration. *)
Lemma Done_duration_ignores_setup_witness :
  getConn plaintext_state <> getConn plaintext_state_again
  /\ Duration (Done plaintext_state (some_clock + 60000000))
     = Duration (Done plaintext_state_again (some_clock + 60000000))
  /\ StartTime (Done plaintext_state (some_clock + 60000000))
     = StartTime (Done plaintext_state_again (some_clock + 60000000)).
Proof.
  split; [vm_compute; discriminate |].
  exact (proj2 (proj2 (proj2
           (Done_duration_ignores_setup plaintext_state
              plaintext_state_again (some_clock + 60000000)
              eq_refl eq_refl eq_refl eq_refl)))).
Defined.

(** The TLS request: 26ms blocked, of which 10ms dialing and 15ms in the
    handshake. *)
Lemma Blocked_covers_setup_witness :
  let t := run_string newTracer tls_calls in
  let tr := Done t (some_clock + 70000000) in
  timestamps t /\ setup_in_order t
  /\ Blocked tr = 26000000
  /\ Connecting tr + TLSHandshaking tr <= Blocked tr.
Proof.
  cbv zeta.
  assert (Hts : timestamps (run_string newTracer tls_calls)).
  { unfold timestamps, timestamp. vm_compute. repeat split; discriminate. }
  assert (Hord : setup_in_order (run_string newTracer tls_calls)).
  { unfold setup_in_order, precedes. vm_compute.
    repeat split; intros; discriminate. }
  assert (Hget : getConn (run_string newTracer tls_calls) <> 0)
    by (vm_compute; discriminate).
  assert (Hgot : gotConn (run_string newTracer tls_calls) <> 0)
    by (vm_compute; discriminate).
  split; [exact Hts |]. split; [exact Hord |].
  exact (Blocked_covers_setup (run_string newTracer tls_calls)
           (some_clock + 70000000) Hts Hord Hget Hgot).
Defined.

(** The failed dials leave timestamps. *)
Lemma run_timestamps_witness :
  timestamps (@newTracer string string)
  /\ Forall (fun call : event_string * Z => timestamp (snd call)) failed_dials
  /\ timestamps (run_string newTracer failed_dials).
Proof.
  assert (Hzero : timestamps (@newTracer string string)).
  { unfold timestamps, timestamp. vm_compute. repeat split; discriminate. }
  assert (Hclocks : Forall (fun call : event_string * Z =>
                              timestamp (snd call)) failed_dials).
  { unfold failed_dials.
    repeat (apply Forall_cons_2;
            [unfold timestamp; vm_compute; split; discriminate |]).
    apply Forall_nil_2. }
  split; [exact Hzero |]. split; [exact Hclocks |].
  exact (run_timestamps RemoteAddr_string failed_dials newTracer
           Hzero Hclocks).
Defined.

(** The reused request: connect-done is the instant the connection was
    obtained, and [Sending] is counted from it. *)
Lemma reused_has_base_witness :
  let t := run_string newTracer reused_calls in
  run RemoteAddr_string newTracer reused_calls = Returned t
  /\ connReused t = true
  /\ sending_base t <> 0
  /\ Sending (Done t (some_clock + 50000000))
     = Int64.sub (wroteRequest t) (sending_base t).
Proof.
  cbv zeta.
  assert (Hclocks : Forall (fun call : event_string * Z => snd call <> 0)
                      reused_calls).
  { unfold reused_calls, reused_request.
    repeat (apply Forall_cons_2; [vm_compute; discriminate |]).
    apply Forall_nil_2. }
  assert (Hrun : run RemoteAddr_string newTracer reused_calls
                 = Returned (run_string newTracer reused_calls))
    by reflexivity.
  assert (Hwr : wroteRequest (run_string newTracer reused_calls) <> 0)
    by (vm_compute; discriminate).
  split; [exact Hrun |]. split; [reflexivity |].
  pose proof (reused_has_base RemoteAddr_string reused_calls
                (run_string newTracer reused_calls)
                (some_clock + 50000000) Hclocks Hrun eq_refl) as H.
  split; [exact (proj1 (proj2 (proj2 H))) |].
  exact (proj2 (proj2 (proj2 H)) Hwr).
Defined.

(** The TLS request, ended 70ms after [some_clock]. *)
Lemma tls_fresh_trail_witness :
  exists t : tracer_string,
    run RemoteAddr_string newTracer tls_calls = Returned t
    /\ Sending (Done t (some_clock + 70000000)) = 1000000
    /\ TLSHandshaking (Done t (some_clock + 70000000)) = 15000000
    /\ StartTime (Done t (some_clock + 70000000)) = some_clock + 27000000.
Proof.
  destruct (tls_fresh_trail (error:=string) RemoteAddr_string
              (some_clock + 1000000) (some_clock + 2000000)
              (some_clock + 12000000) (some_clock + 12000000)
              (some_clock + 27000000) (some_clock + 27000000)
              (some_clock + 28000000) (some_clock + 60000000)
              (some_clock + 70000000) "192.0.2.1:443" tt)
    as (t & Hrun & _ & _ & Htls & Hs & _ & _ & _ & Hstart & _);
    try (apply recorded_after_some_clock; lia).
  - unfold timestamp, some_clock, Int64.MaxInt64. lia.
  - exists t. split; [exact Hrun |].
    rewrite Hs, Htls, Hstart. repeat split; lia.
Defined.

(** The reused request, ended 50ms after [some_clock]. *)
Lemma reused_request_trail_witness :
  exists t : tracer_string,
    run RemoteAddr_string newTracer reused_calls = Returned t
    /\ Connecting (Done t (some_clock + 50000000)) = 0
    /\ Sending (Done t (some_clock + 50000000)) = 999500
    /\ StartTime (Done t (some_clock + 50000000)) = some_clock + 1000500.
Proof.
  destruct (reused_request_trail (error:=string)
              (tls_ConnectionState:=unit) RemoteAddr_string
              (some_clock + 1000000) (some_clock + 1000500)
              (some_clock + 2000000) (some_clock + 40000000)
              (some_clock + 50000000) "192.0.2.1:443" time.Second)
    as (t & Hrun & _ & Hc & _ & Hs & _ & _ & _ & Hstart & _);
    try (apply recorded_after_some_clock; lia).
  - unfold timestamp, some_clock, Int64.MaxInt64. lia.
  - exists t. split; [exact Hrun |].
    rewrite Hs, Hc, Hstart. repeat split; lia.
Defined.
